(** * Contact and newsletter API endpoints

    A shallow embedding of the two Astro API routes of the site,
    [src/pages/api/contact.ts] and [src/pages/api/newsletter.ts], and of the
    rate limiter they delegate to.

    The routes are glue code: every interesting step is a call to an imported
    helper.  The helpers are therefore an explicit interface
    ([Collaborators]), the handlers are written in a small monad that threads
    the helpers' state, propagates thrown values and records every helper
    call, and the properties are statements about the recorded calls and the
    response that comes out.

    The routes are read twice: against [Collaborators], where only the two
    awaited operations may throw, and against [Throwing.Helpers], where every
    helper may. *)

From Stdlib Require Import ZArith String List Lia.
From stdpp Require Import gmap strings list pretty.
Import ListNotations.

Local Open Scope string_scope.
Local Open Scope Z_scope.

(** ** Values that cross the handler boundary *)

(** The JavaScript values the handlers build and receive.  A response body is
    kept as the value handed to [JSON.stringify]; the serialisation itself is
    the platform's. *)
#[local] Unset Elimination Schemes.
Inductive Json : Type :=
| JNull
| JBool (b : bool)
| JNum (n : Z)
| JStr (s : string)
| JArr (items : list Json)
| JObj (fields : list (string * Json)).
#[local] Set Elimination Schemes.

Definition Header : Type := (string * string)%type.

(** The part of a Fetch [Request] the routes and their helpers look at. *)
Record Request : Type := {
  method : string;
  reqHeaders : list Header;
  reqBody : string
}.

(** [new Response(body, { status, headers })]. *)
Record Response : Type := {
  body : option Json;
  status : Z;
  headers : list Header
}.

(** An [Error] object, and whatever else a [throw] may carry (kept as its
    [String(...)] rendering, which is all the handlers use of it). *)
Record JsError : Type := { message : string }.

Inductive Thrown : Type :=
| ThrownError (err : JsError)
| ThrownOther (rendering : string).

Inductive Outcome (A : Type) : Type :=
| Returned (a : A)
| Threw (e : Thrown).
Arguments Returned {A} a.
Arguments Threw {A} e.

(** Return type of [checkRateLimit]. *)
Record RateLimitResult : Type := {
  allowed : bool;
  remaining : Z;
  resetTime : Z
}.

(** Return type of [validateContactForm] and [validateNewsletterForm]. *)
Record ValidationResult : Type := {
  valid : bool;
  errors : list string;
  sanitized : option Json
}.

(** Second argument of [logError]. *)
Record LogContext : Type := {
  component : string;
  action : string;
  metadata : list (string * string)
}.

(** ** Helper calls *)

(** One constructor per imported helper (and per platform call) the routes
    make, carrying the arguments of the call. *)
Inductive Event : Type :=
| EvValidateOrigin (request : Request)
| EvGetClientIP (request : Request)
| EvCheckRateLimit (clientIP : string)
| EvDateNow
| EvRequestJson (request : Request)
| EvValidateContactForm (data : Json)
| EvValidateNewsletterForm (data : Json)
| EvSendContactEmail (data : option Json)
| EvSendNewsletterWelcome (data : option Json)
| EvLogError (error : JsError) (context : LogContext) (severity : string)
| EvApplySecurityHeaders (response : Response) (kind : string).

(** The helper behind an event, forgetting the arguments. *)
Inductive Callee : Type :=
| CValidateOrigin | CGetClientIP | CCheckRateLimit | CDateNow | CRequestJson
| CValidateForm | CSendEmail | CLogError | CApplySecurityHeaders.

Definition callee (ev : Event) : Callee :=
  match ev with
  | EvValidateOrigin _ => CValidateOrigin
  | EvGetClientIP _ => CGetClientIP
  | EvCheckRateLimit _ => CCheckRateLimit
  | EvDateNow => CDateNow
  | EvRequestJson _ => CRequestJson
  | EvValidateContactForm _ | EvValidateNewsletterForm _ => CValidateForm
  | EvSendContactEmail _ | EvSendNewsletterWelcome _ => CSendEmail
  | EvLogError _ _ _ => CLogError
  | EvApplySecurityHeaders _ _ => CApplySecurityHeaders
  end.

Definition Callee_eqb (a b : Callee) : bool :=
  match a, b with
  | CValidateOrigin, CValidateOrigin
  | CGetClientIP, CGetClientIP
  | CCheckRateLimit, CCheckRateLimit
  | CDateNow, CDateNow
  | CRequestJson, CRequestJson
  | CValidateForm, CValidateForm
  | CSendEmail, CSendEmail
  | CLogError, CLogError
  | CApplySecurityHeaders, CApplySecurityHeaders => true
  | _, _ => false
  end.

(** [invoked c evs]: some call in [evs] went to helper [c]. *)
Definition invoked (c : Callee) (evs : list Event) : bool :=
  existsb (fun ev => Callee_eqb (callee ev) c) evs.

(** ** The imported helpers

    None of [utils/security.js], [utils/securityHeaders.js],
    [utils/emailService.js] and [utils/errorTracking.js] is part of the
    sources at hand, so the routes are read against an arbitrary
    implementation of them over an arbitrary helper state [Env] (the
    rate-limit store, the clock, the mail transport).

    The synchronous helpers return normally, as their use sites assume; the
    two awaited operations, [request.json()] and the email sender, may
    reject.  [logError] has no result and no state of interest: its call is
    its effect. *)
Record Collaborators (Env : Type) : Type := {
  validateOrigin : Request -> bool;
  getClientIP : Request -> string;
  checkRateLimit : string -> Env -> RateLimitResult * Env;
  dateNow : Env -> Z * Env;
  requestJson : Request -> Outcome Json;
  validateContactForm : Json -> ValidationResult;
  validateNewsletterForm : Json -> ValidationResult;
  sendContactEmail : option Json -> Env -> Outcome unit * Env;
  sendNewsletterWelcome : option Json -> Env -> Outcome unit * Env;
  securityHeaders : string -> list Header -> list Header
}.
Arguments validateOrigin {Env} _ _.
Arguments getClientIP {Env} _ _.
Arguments checkRateLimit {Env} _ _ _.
Arguments dateNow {Env} _ _.
Arguments requestJson {Env} _ _.
Arguments validateContactForm {Env} _ _.
Arguments validateNewsletterForm {Env} _ _.
Arguments sendContactEmail {Env} _ _ _.
Arguments sendNewsletterWelcome {Env} _ _ _.
Arguments securityHeaders {Env} _ _ _.

(** Modelled from the spec: [applySecurityHeaders] of
    [utils/securityHeaders.js] is missing from the sources; the specification
    calls it the header-injection collaborator, so it rewrites the header
    list of the response (by the helper's own table, [securityHeaders]) and
    leaves the status and the body alone. *)
Definition applySecurityHeaders {Env} (C : Collaborators Env)
    (response : Response) (kind : string) : Response :=
  {| body := body response;
     status := status response;
     headers := securityHeaders C kind (headers response) |}.

(** ** The handler monad: helper state, thrown values, recorded calls *)

Record Run (Env A : Type) : Type := {
  outcome : Outcome A;
  envAfter : Env;
  calls : list Event
}.
Arguments outcome {Env A} _.
Arguments envAfter {Env A} _.
Arguments calls {Env A} _.

Definition Handler (Env A : Type) : Type := Env -> Run Env A.

Definition ret {Env A} (a : A) : Handler Env A :=
  fun env => {| outcome := Returned a; envAfter := env; calls := [] |}.

Definition throw {Env A} (e : Thrown) : Handler Env A :=
  fun env => {| outcome := Threw e; envAfter := env; calls := [] |}.

Definition addCalls {Env A} (before : list Event) (r : Run Env A)
    : Run Env A :=
  match r with
  | {| outcome := o; envAfter := env; calls := evs |} =>
      {| outcome := o; envAfter := env; calls := before ++ evs |}
  end.

Definition bind {Env A B} (m : Handler Env A) (k : A -> Handler Env B)
    : Handler Env B :=
  fun env =>
    match m env with
    | {| outcome := Returned a; envAfter := env'; calls := evs |} =>
        addCalls evs (k a env')
    | {| outcome := Threw e; envAfter := env'; calls := evs |} =>
        {| outcome := Threw e; envAfter := env'; calls := evs |}
    end.

(** [try { body } catch (error) { handler }]. *)
Definition try_catch {Env A} (body : Handler Env A)
    (handler : Thrown -> Handler Env A) : Handler Env A :=
  fun env =>
    match body env with
    | {| outcome := Returned a; envAfter := env'; calls := evs |} =>
        {| outcome := Returned a; envAfter := env'; calls := evs |}
    | {| outcome := Threw e; envAfter := env'; calls := evs |} =>
        addCalls evs (handler e env')
    end.

Notation "'let*' x ':=' m 'in' k" := (bind m (fun x => k))
  (at level 10, x name, m at level 100, k at level 200).
Notation "m ';;' k" := (bind m (fun _ => k))
  (at level 100, k at level 200, right associativity).

(** A helper call: record the event, then behave as the helper does. *)
Definition record {Env} (ev : Event) : Handler Env unit :=
  fun env => {| outcome := Returned tt; envAfter := env; calls := [ev] |}.

Definition stateful {Env A} (f : Env -> A * Env) : Handler Env A :=
  fun env => {| outcome := Returned (fst (f env));
                envAfter := snd (f env);
                calls := [] |}.

Definition fallible {Env A} (f : Env -> Outcome A * Env) : Handler Env A :=
  fun env => {| outcome := fst (f env); envAfter := snd (f env); calls := [] |}.

Module Call.
Section Calls.
Context {Env : Type} (C : Collaborators Env).

Definition validateOrigin (request : Request) : Handler Env bool :=
  record (EvValidateOrigin request) ;; ret (validateOrigin C request).

Definition getClientIP (request : Request) : Handler Env string :=
  record (EvGetClientIP request) ;; ret (getClientIP C request).

Definition checkRateLimit (clientIP : string) : Handler Env RateLimitResult :=
  record (EvCheckRateLimit clientIP) ;; stateful (checkRateLimit C clientIP).

Definition Date_now : Handler Env Z :=
  record EvDateNow ;; stateful (dateNow C).

Definition request_json (request : Request) : Handler Env Json :=
  record (EvRequestJson request) ;;
  fallible (fun env => (requestJson C request, env)).

Definition validateContactForm (data : Json) : Handler Env ValidationResult :=
  record (EvValidateContactForm data) ;; ret (validateContactForm C data).

Definition validateNewsletterForm (data : Json)
    : Handler Env ValidationResult :=
  record (EvValidateNewsletterForm data) ;;
  ret (validateNewsletterForm C data).

Definition sendContactEmail (data : option Json) : Handler Env unit :=
  record (EvSendContactEmail data) ;; fallible (sendContactEmail C data).

Definition sendNewsletterWelcome (data : option Json) : Handler Env unit :=
  record (EvSendNewsletterWelcome data) ;;
  fallible (sendNewsletterWelcome C data).

Definition logError (error : JsError) (context : LogContext)
    (severity : string) : Handler Env unit :=
  record (EvLogError error context severity).

Definition applySecurityHeaders (response : Response) (kind : string)
    : Handler Env Response :=
  record (EvApplySecurityHeaders response kind) ;;
  ret (applySecurityHeaders C response kind).
End Calls.
End Call.

(** ** Pieces of JavaScript the routes use inline *)

(** [error instanceof Error ? error : new Error(String(error))]. *)
Definition asError (error : Thrown) : JsError :=
  match error with
  | ThrownError err => err
  | ThrownOther rendering => {| message := rendering |}
  end.

(** [Math.ceil(ms / 1000)] for a whole number of milliseconds [ms].  (Below
    2^53 the double quotient never rounds across an integer, so the result is
    the exact ceiling.) *)
Definition ceilSeconds (ms : Z) : Z := - ((- ms) / 1000).

(** [Number.prototype.toString()] on an integer. *)
Definition toString (n : Z) : string := pretty n.

Definition jsonHeaders : list Header :=
  [("Content-Type", "application/json")].

(** ** Reading a response back *)

Definition lookupBy {A} (name : string) (entries : list (string * A))
    : option A :=
  option_map snd (find (fun e => String.eqb (fst e) name) entries).

(** A member of a JSON object. *)
Definition field (name : string) (data : Json) : option Json :=
  match data with
  | JObj fields => lookupBy name fields
  | _ => None
  end.

(** A member of the JSON body of a response. *)
Definition bodyField (name : string) (response : Response) : option Json :=
  match body response with
  | Some data => field name data
  | None => None
  end.


(** Does the response carry a CORS header? *)
Definition hasCorsHeader (response : Response) : bool :=
  existsb (fun h => String.prefix "Access-Control-" (fst h))
          (headers response).

(** ** [src/pages/api/contact.ts] *)
Module Contact.
Section Route.
Context {Env : Type} (C : Collaborators Env).

Definition methodNotAllowed : Response :=
  {| body := Some (JObj [("success", JBool false);
                         ("error", JStr "Method not allowed")]);
     status := 405;
     headers := jsonHeaders |}.

Definition invalidOrigin : Response :=
  {| body := Some (JObj [("success", JBool false);
                         ("error", JStr "Invalid origin")]);
     status := 403;
     headers := jsonHeaders |}.

Definition tooManyRequests (retryAfter retryAfterHeader : Z) : Response :=
  {| body := Some (JObj [("success", JBool false);
                         ("error",
                          JStr "Too many requests. Please try again later.");
                         ("retryAfter", JNum retryAfter)]);
     status := 429;
     headers := [("Content-Type", "application/json");
                 ("Retry-After", toString retryAfterHeader)] |}.

Definition validationFailed (details : list string) : Response :=
  {| body := Some (JObj [("success", JBool false);
                         ("error", JStr "Validation failed");
                         ("details", JArr (map JStr details))]);
     status := 400;
     headers := jsonHeaders |}.

Definition messageSent (remaining : Z) : Response :=
  {| body := Some (JObj [("success", JBool true);
                         ("message",
                          JStr "Message sent successfully! We'll get back to you soon.");
                         ("remaining", JNum remaining)]);
     status := 200;
     headers := jsonHeaders |}.

Definition internalError : Response :=
  {| body := Some (JObj [("success", JBool false);
                         ("error",
                          JStr "Internal server error. Please try again later.")]);
     status := 500;
     headers := jsonHeaders |}.

Definition logContext : LogContext :=
  {| component := "contact-api";
     action := "form-submission";
     metadata := [("endpoint", "/api/contact")] |}.

(** The [try] block of [POST]. *)
Definition attempt (request : Request) : Handler Env Response :=
  if negb (String.eqb (method request) "POST") then
    Call.applySecurityHeaders C methodNotAllowed "api"
  else
    let* originOk := Call.validateOrigin C request in
    if negb originOk then
      Call.applySecurityHeaders C invalidOrigin "api"
    else
      let* clientIP := Call.getClientIP C request in
      let* rateLimit := Call.checkRateLimit C clientIP in
      if negb (allowed rateLimit) then
        let* now := Call.Date_now C in
        let* now' := Call.Date_now C in
        ret (tooManyRequests
               (ceilSeconds (resetTime rateLimit - now))
               (ceilSeconds (resetTime rateLimit - now')))
      else
        let* data := Call.request_json C request in
        let* validation := Call.validateContactForm C data in
        if negb (valid validation) then
          ret (validationFailed (errors validation))
        else
          Call.sendContactEmail C (sanitized validation) ;;
          Call.applySecurityHeaders C
            (messageSent (remaining rateLimit)) "api".

(** The [catch (error)] block of [POST]. *)
Definition recover (error : Thrown) : Handler Env Response :=
  Call.logError (asError error) logContext "high" ;;
  Call.applySecurityHeaders C internalError "api".

Definition POST (request : Request) : Handler Env Response :=
  try_catch (attempt request) recover.

Definition corsPreflight : Response :=
  {| body := None;
     status := 200;
     headers := [("Access-Control-Allow-Origin", "https://johnciresi.com");
                 ("Access-Control-Allow-Methods", "POST, OPTIONS");
                 ("Access-Control-Allow-Headers", "Content-Type")] |}.

(** The route is declared [async () => ...]: the framework still calls it
    with the request context, which it ignores. *)
Definition OPTIONS (_ : Request) : Handler Env Response :=
  Call.applySecurityHeaders C corsPreflight "api".
End Route.
End Contact.

(** ** [src/pages/api/newsletter.ts] *)
Module Newsletter.
Section Route.
Context {Env : Type} (C : Collaborators Env).

Definition methodNotAllowed : Response :=
  {| body := Some (JObj [("success", JBool false);
                         ("error", JStr "Method not allowed")]);
     status := 405;
     headers := jsonHeaders |}.

Definition invalidOrigin : Response :=
  {| body := Some (JObj [("success", JBool false);
                         ("error", JStr "Invalid origin")]);
     status := 403;
     headers := jsonHeaders |}.

Definition tooManyRequests (retryAfter retryAfterHeader : Z) : Response :=
  {| body := Some (JObj [("success", JBool false);
                         ("error",
                          JStr "Too many requests. Please try again later.");
                         ("retryAfter", JNum retryAfter)]);
     status := 429;
     headers := [("Content-Type", "application/json");
                 ("Retry-After", toString retryAfterHeader)] |}.

Definition validationFailed (details : list string) : Response :=
  {| body := Some (JObj [("success", JBool false);
                         ("error", JStr "Validation failed");
                         ("details", JArr (map JStr details))]);
     status := 400;
     headers := jsonHeaders |}.

Definition subscribed (remaining : Z) : Response :=
  {| body := Some (JObj [("success", JBool true);
                         ("message",
                          JStr "Successfully subscribed! Check your email for a welcome message.");
                         ("remaining", JNum remaining)]);
     status := 200;
     headers := jsonHeaders |}.

Definition internalError : Response :=
  {| body := Some (JObj [("success", JBool false);
                         ("error",
                          JStr "Internal server error. Please try again later.")]);
     status := 500;
     headers := jsonHeaders |}.

Definition logContext : LogContext :=
  {| component := "newsletter-api";
     action := "subscription";
     metadata := [("endpoint", "/api/newsletter")] |}.

(** The [try] block of [POST]. *)
Definition attempt (request : Request) : Handler Env Response :=
  if negb (String.eqb (method request) "POST") then
    Call.applySecurityHeaders C methodNotAllowed "api"
  else
    let* originOk := Call.validateOrigin C request in
    if negb originOk then
      Call.applySecurityHeaders C invalidOrigin "api"
    else
      let* clientIP := Call.getClientIP C request in
      let* rateLimit := Call.checkRateLimit C clientIP in
      if negb (allowed rateLimit) then
        let* now := Call.Date_now C in
        let* now' := Call.Date_now C in
        ret (tooManyRequests
               (ceilSeconds (resetTime rateLimit - now))
               (ceilSeconds (resetTime rateLimit - now')))
      else
        let* data := Call.request_json C request in
        let* validation := Call.validateNewsletterForm C data in
        if negb (valid validation) then
          ret (validationFailed (errors validation))
        else
          Call.sendNewsletterWelcome C (sanitized validation) ;;
          ret (subscribed (remaining rateLimit)).

(** The [catch (error)] block of [POST]. *)
Definition recover (error : Thrown) : Handler Env Response :=
  Call.logError (asError error) logContext "high" ;;
  ret internalError.

Definition POST (request : Request) : Handler Env Response :=
  try_catch (attempt request) recover.

Definition corsPreflight : Response :=
  {| body := None;
     status := 200;
     headers := [("Access-Control-Allow-Origin", "*");
                 ("Access-Control-Allow-Methods", "POST, OPTIONS");
                 ("Access-Control-Allow-Headers", "Content-Type")] |}.

(** Declared [async () => ...], as in the contact route. *)
Definition OPTIONS (_ : Request) : Handler Env Response :=
  ret corsPreflight.
End Route.
End Newsletter.

(** ** The rate limiter *)
Module RateLimiter.

(** One record per client key: the request count of the current window and
    the time at which that window ends. *)
Record RateLimitRecord : Type := {
  count : Z;
  windowReset : Z
}.

Section Limiter.
(** Window length (milliseconds) and quota. *)
Variables (W Q : Z).

(** A window that starts at [t] covers the [W] milliseconds from [t] on:
    it is over once the clock has reached [t + W]. *)
Definition expired (now : Z) (r : RateLimitRecord) : bool :=
  windowReset r <=? now.

(** Modelled from the spec: [checkRateLimit] of [utils/security.js] is
    missing from the sources.  Section 4.1 of the specification: one
    counter per client key; if no record exists or the window has expired,
    start a new window with count 1, allowed, remaining [Q - 1]; otherwise
    increment the count, allowed iff the count is at most [Q], remaining
    [max(0, Q - count)].  The clock is injected ([now]), as section 9 asks,
    and the store is passed explicitly. *)
Definition checkRateLimit (now : Z) (clientKey : string)
    (store : gmap string RateLimitRecord)
    : RateLimitResult * gmap string RateLimitRecord :=
  let fresh :=
    ({| allowed := true; remaining := Q - 1; resetTime := now + W |},
     <[clientKey := {| count := 1; windowReset := now + W |}]> store) in
  match store !! clientKey with
  | None => fresh
  | Some r =>
      if expired now r then fresh
      else
        let n := count r + 1 in
        ({| allowed := n <=? Q;
            remaining := Z.max 0 (Q - n);
            resetTime := windowReset r |},
         <[clientKey := {| count := n; windowReset := windowReset r |}]>
           store)
  end.

(** What the specification promises for the [n]-th call of a window that
    ends at [reset]. *)
Definition nthAnswer (reset : Z) (n : Z) : RateLimitResult :=
  {| allowed := n <=? Q;
     remaining := Z.max 0 (Q - n);
     resetTime := reset |}.

(** Successive calls for one key, at the given clock readings; the results
    come back in call order. *)
Fixpoint checkEach (clientKey : string) (times : list Z)
    (store : gmap string RateLimitRecord)
    : list RateLimitResult * gmap string RateLimitRecord :=
  match times with
  | [] => ([], store)
  | now :: later =>
      let (res, store') := checkRateLimit now clientKey store in
      let (rest, store'') := checkEach clientKey later store' in
      (res :: rest, store'')
  end.
End Limiter.
End RateLimiter.

(** ** An in-memory implementation of the helpers

    The rate limiter above over a settable clock, an outbox in place of the
    mail transport, and small stand-ins for the origin check, the body parser
    and the validators.  It runs the routes on concrete requests. *)
Module InMemory.

Record Env : Type := {
  store : gmap string RateLimiter.RateLimitRecord;
  clock : Z;             (* the next reading of [Date.now()] *)
  tick : Z;              (* how far each reading advances the clock *)
  outbox : list (option Json);
  mailDown : bool
}.

Definition readClock (env : Env) : Z * Env :=
  (clock env,
   {| store := store env; clock := clock env + tick env; tick := tick env;
      outbox := outbox env; mailDown := mailDown env |}).

Definition requestHeader (name : string) (request : Request)
    : option string :=
  lookupBy name (reqHeaders request).

Definition siteOrigin : string := "https://johnciresi.com".

Definition originAllowed (request : Request) : bool :=
  match requestHeader "origin" request with
  | Some o => String.eqb o siteOrigin
  | None => false
  end.

Definition clientIP (request : Request) : string :=
  match requestHeader "x-forwarded-for" request with
  | Some ip => ip
  | None => "unknown"
  end.

Definition limit (W Q : Z) (key : string) (env : Env)
    : RateLimitResult * Env :=
  let (now, env') := readClock env in
  let (res, store') := RateLimiter.checkRateLimit W Q now key (store env') in
  (res,
   {| store := store'; clock := clock env'; tick := tick env';
      outbox := outbox env'; mailDown := mailDown env' |}).

(** The parser stand-in knows three bodies. *)
Definition parse (request : Request) : Outcome Json :=
  if String.eqb (reqBody request) "bad-email" then
    Returned (JObj [("email", JStr "not-an-email")])
  else if String.eqb (reqBody request) "good" then
    Returned (JObj [("name", JStr "A"); ("email", JStr "a@b.com");
                    ("message", JStr "hi")])
  else
    Threw (ThrownError {| message := "Unexpected token in JSON" |}).

Fixpoint hasAt (s : string) : bool :=
  match s with
  | EmptyString => false
  | String c rest => Ascii.eqb c (Ascii.ascii_of_nat 64) || hasAt rest
  end.

Definition validate (data : Json) : ValidationResult :=
  match field "email" data with
  | Some (JStr e) =>
      if hasAt e then
        {| valid := true; errors := []; sanitized := Some data |}
      else
        {| valid := false; errors := ["email: not a valid address"];
           sanitized := None |}
  | _ =>
      {| valid := false; errors := ["email: required"]; sanitized := None |}
  end.

Definition send (data : option Json) (env : Env) : Outcome unit * Env :=
  if mailDown env then
    (Threw (ThrownOther "mail transport unavailable"), env)
  else
    (Returned tt,
     {| store := store env; clock := clock env; tick := tick env;
        outbox := outbox env ++ [data]; mailDown := mailDown env |}).

Definition inject (kind : string) (hs : list Header) : list Header :=
  hs ++ [("X-Content-Type-Options", "nosniff")].

Definition collaborators (W Q : Z) : Collaborators Env :=
  {| validateOrigin := originAllowed;
     getClientIP := clientIP;
     checkRateLimit := limit W Q;
     dateNow := readClock;
     requestJson := parse;
     validateContactForm := validate;
     validateNewsletterForm := validate;
     sendContactEmail := send;
     sendNewsletterWelcome := send;
     securityHeaders := inject |}.

Definition post (origin ip payload : string) : Request :=
  {| method := "POST";
     reqHeaders := [("origin", origin); ("x-forwarded-for", ip)];
     reqBody := payload |}.

Definition start (now step : Z) (down : bool) : Env :=
  {| store := ∅; clock := now; tick := step; outbox := [];
     mailDown := down |}.

(** The helper state after [n] earlier requests from [ip], all in the same
    instant. *)
Definition busy (W Q : Z) (n : nat) (ip : string) (now step : Z) : Env :=
  {| store := snd (RateLimiter.checkEach W Q ip (repeat now n) ∅);
     clock := now; tick := step; outbox := []; mailDown := false |}.
End InMemory.

(** ** The routes when any helper may throw

    Every helper call of a route sits inside its [try] block, and [logError]
    and [applySecurityHeaders] are called again inside [catch].  Here the
    same two routes are read against helpers that may each throw instead of
    returning, and that all work on the helper state.  [Collaborators] is the
    special case in which only [request.json()] and the email sender throw
    ([ofCollaborators], and [POST_ofCollaborators] below). *)
Module Throwing.

Record Helpers (Env : Type) : Type := {
  validateOrigin : Request -> Env -> Outcome bool * Env;
  getClientIP : Request -> Env -> Outcome string * Env;
  checkRateLimit : string -> Env -> Outcome RateLimitResult * Env;
  dateNow : Env -> Z * Env;
  requestJson : Request -> Env -> Outcome Json * Env;
  validateContactForm : Json -> Env -> Outcome ValidationResult * Env;
  validateNewsletterForm : Json -> Env -> Outcome ValidationResult * Env;
  sendContactEmail : option Json -> Env -> Outcome unit * Env;
  sendNewsletterWelcome : option Json -> Env -> Outcome unit * Env;
  logError : JsError -> LogContext -> string -> Env -> Outcome unit * Env;
  securityHeaders : string -> list Header -> Env
                    -> Outcome (list Header) * Env
}.
Arguments validateOrigin {Env} _ _ _.
Arguments getClientIP {Env} _ _ _.
Arguments checkRateLimit {Env} _ _ _.
Arguments dateNow {Env} _ _.
Arguments requestJson {Env} _ _ _.
Arguments validateContactForm {Env} _ _ _.
Arguments validateNewsletterForm {Env} _ _ _.
Arguments sendContactEmail {Env} _ _ _.
Arguments sendNewsletterWelcome {Env} _ _ _.
Arguments logError {Env} _ _ _ _ _.
Arguments securityHeaders {Env} _ _ _ _.

(** Modelled from the spec: [applySecurityHeaders] is missing from the
    sources; as the header-injection collaborator of the specification it
    rewrites the header list and leaves the status and the body alone, or
    throws. *)
Definition applySecurityHeaders {Env} (H : Helpers Env)
    (response : Response) (kind : string) (env : Env)
    : Outcome Response * Env :=
  let injected := securityHeaders H kind (headers response) env in
  (match fst injected with
   | Returned hs =>
       Returned {| body := body response;
                   status := status response;
                   headers := hs |}
   | Threw e => Threw e
   end,
   snd injected).

Module Call.
Section Calls.
Context {Env : Type} (H : Helpers Env).

Definition validateOrigin (request : Request) : Handler Env bool :=
  record (EvValidateOrigin request) ;; fallible (validateOrigin H request).

Definition getClientIP (request : Request) : Handler Env string :=
  record (EvGetClientIP request) ;; fallible (getClientIP H request).

Definition checkRateLimit (clientIP : string) : Handler Env RateLimitResult :=
  record (EvCheckRateLimit clientIP) ;; fallible (checkRateLimit H clientIP).

Definition Date_now : Handler Env Z :=
  record EvDateNow ;; stateful (dateNow H).

Definition request_json (request : Request) : Handler Env Json :=
  record (EvRequestJson request) ;; fallible (requestJson H request).

Definition validateContactForm (data : Json) : Handler Env ValidationResult :=
  record (EvValidateContactForm data) ;; fallible (validateContactForm H data).

Definition validateNewsletterForm (data : Json)
    : Handler Env ValidationResult :=
  record (EvValidateNewsletterForm data) ;;
  fallible (validateNewsletterForm H data).

Definition sendContactEmail (data : option Json) : Handler Env unit :=
  record (EvSendContactEmail data) ;; fallible (sendContactEmail H data).

Definition sendNewsletterWelcome (data : option Json) : Handler Env unit :=
  record (EvSendNewsletterWelcome data) ;;
  fallible (sendNewsletterWelcome H data).

Definition logError (error : JsError) (context : LogContext)
    (severity : string) : Handler Env unit :=
  record (EvLogError error context severity) ;;
  fallible (logError H error context severity).

Definition applySecurityHeaders (response : Response) (kind : string)
    : Handler Env Response :=
  record (EvApplySecurityHeaders response kind) ;;
  fallible (applySecurityHeaders H response kind).
End Calls.
End Call.

(** [POST] of the contact route; the responses it builds are the ones of
    [Contact]. *)
Section ContactRoute.
Context {Env : Type} (H : Helpers Env).

Definition contactAttempt (request : Request) : Handler Env Response :=
  if negb (String.eqb (method request) "POST") then
    Call.applySecurityHeaders H Contact.methodNotAllowed "api"
  else
    let* originOk := Call.validateOrigin H request in
    if negb originOk then
      Call.applySecurityHeaders H Contact.invalidOrigin "api"
    else
      let* clientIP := Call.getClientIP H request in
      let* rateLimit := Call.checkRateLimit H clientIP in
      if negb (allowed rateLimit) then
        let* now := Call.Date_now H in
        let* now' := Call.Date_now H in
        ret (Contact.tooManyRequests
               (ceilSeconds (resetTime rateLimit - now))
               (ceilSeconds (resetTime rateLimit - now')))
      else
        let* data := Call.request_json H request in
        let* validation := Call.validateContactForm H data in
        if negb (valid validation) then
          ret (Contact.validationFailed (errors validation))
        else
          Call.sendContactEmail H (sanitized validation) ;;
          Call.applySecurityHeaders H
            (Contact.messageSent (remaining rateLimit)) "api".

Definition contactRecover (error : Thrown) : Handler Env Response :=
  Call.logError H (asError error) Contact.logContext "high" ;;
  Call.applySecurityHeaders H Contact.internalError "api".

Definition contactPOST (request : Request) : Handler Env Response :=
  try_catch (contactAttempt request) contactRecover.
End ContactRoute.

(** [POST] of the newsletter route. *)
Section NewsletterRoute.
Context {Env : Type} (H : Helpers Env).

Definition newsletterAttempt (request : Request) : Handler Env Response :=
  if negb (String.eqb (method request) "POST") then
    Call.applySecurityHeaders H Newsletter.methodNotAllowed "api"
  else
    let* originOk := Call.validateOrigin H request in
    if negb originOk then
      Call.applySecurityHeaders H Newsletter.invalidOrigin "api"
    else
      let* clientIP := Call.getClientIP H request in
      let* rateLimit := Call.checkRateLimit H clientIP in
      if negb (allowed rateLimit) then
        let* now := Call.Date_now H in
        let* now' := Call.Date_now H in
        ret (Newsletter.tooManyRequests
               (ceilSeconds (resetTime rateLimit - now))
               (ceilSeconds (resetTime rateLimit - now')))
      else
        let* data := Call.request_json H request in
        let* validation := Call.validateNewsletterForm H data in
        if negb (valid validation) then
          ret (Newsletter.validationFailed (errors validation))
        else
          Call.sendNewsletterWelcome H (sanitized validation) ;;
          ret (Newsletter.subscribed (remaining rateLimit)).

Definition newsletterRecover (error : Thrown) : Handler Env Response :=
  Call.logError H (asError error) Newsletter.logContext "high" ;;
  ret Newsletter.internalError.

Definition newsletterPOST (request : Request) : Handler Env Response :=
  try_catch (newsletterAttempt request) newsletterRecover.
End NewsletterRoute.
End Throwing.

(** Helpers that return normally wherever [Collaborators] says so. *)
Definition ofCollaborators {Env} (C : Collaborators Env)
    : Throwing.Helpers Env :=
  {| Throwing.validateOrigin :=
       fun request env => (Returned (validateOrigin C request), env);
     Throwing.getClientIP :=
       fun request env => (Returned (getClientIP C request), env);
     Throwing.checkRateLimit :=
       fun clientIP env =>
         (Returned (fst (checkRateLimit C clientIP env)),
          snd (checkRateLimit C clientIP env));
     Throwing.dateNow := dateNow C;
     Throwing.requestJson := fun request env => (requestJson C request, env);
     Throwing.validateContactForm :=
       fun data env => (Returned (validateContactForm C data), env);
     Throwing.validateNewsletterForm :=
       fun data env => (Returned (validateNewsletterForm C data), env);
     Throwing.sendContactEmail := sendContactEmail C;
     Throwing.sendNewsletterWelcome := sendNewsletterWelcome C;
     Throwing.logError :=
       fun error context severity env => (Returned tt, env);
     Throwing.securityHeaders :=
       fun kind hs env => (Returned (securityHeaders C kind hs), env) |}.

(** [withFaults fails H]: the helpers [H], except that a helper [c] with
    [fails c = Some e] throws [e] whenever it is called. *)
Definition withFaults {Env} (fails : Callee -> option Thrown)
    (H : Throwing.Helpers Env) : Throwing.Helpers Env :=
  let guard {A} (c : Callee) (f : Env -> Outcome A * Env) (env : Env)
      : Outcome A * Env :=
    match fails c with
    | Some e => (Threw e, env)
    | None => f env
    end in
  {| Throwing.validateOrigin :=
       fun request => guard CValidateOrigin (Throwing.validateOrigin H request);
     Throwing.getClientIP :=
       fun request => guard CGetClientIP (Throwing.getClientIP H request);
     Throwing.checkRateLimit :=
       fun clientIP =>
         guard CCheckRateLimit (Throwing.checkRateLimit H clientIP);
     Throwing.dateNow := Throwing.dateNow H;
     Throwing.requestJson :=
       fun request => guard CRequestJson (Throwing.requestJson H request);
     Throwing.validateContactForm :=
       fun data => guard CValidateForm (Throwing.validateContactForm H data);
     Throwing.validateNewsletterForm :=
       fun data =>
         guard CValidateForm (Throwing.validateNewsletterForm H data);
     Throwing.sendContactEmail :=
       fun data => guard CSendEmail (Throwing.sendContactEmail H data);
     Throwing.sendNewsletterWelcome :=
       fun data => guard CSendEmail (Throwing.sendNewsletterWelcome H data);
     Throwing.logError :=
       fun error context severity =>
         guard CLogError (Throwing.logError H error context severity);
     Throwing.securityHeaders :=
       fun kind hs =>
         guard CApplySecurityHeaders (Throwing.securityHeaders H kind hs) |}.

(** ** Counting calls *)

(** How many calls in [evs] went to helper [c]. *)
Definition countCalls (c : Callee) (evs : list Event) : nat :=
  length (List.filter (fun ev => Callee_eqb (callee ev) c) evs).

(** The calls of a run that are not to [applySecurityHeaders]. *)
Definition withoutHeaderCalls (evs : list Event) : list Event :=
  List.filter
    (fun ev => negb (Callee_eqb (callee ev) CApplySecurityHeaders)) evs.

(** ** [eslint.config.js]: the rule tables *)
Module Eslint.

(** [process.env.NODE_ENV === 'production' ? 'error' : 'off'], with
    [None] for an unset variable. *)
Definition noConsole (nodeEnv : option string) : Json :=
  match nodeEnv with
  | Some v => if String.eqb v "production" then JStr "error" else JStr "off"
  | None => JStr "off"
  end.

(** The [rules] object of the [**/*.{js,jsx}] block; the [**/*.astro] block
    repeats it key for key.  An object literal is built key by key, a later
    key replacing an earlier one of the same name. *)
Definition jsRules (nodeEnv : option string) : gmap string Json :=
  <["no-unused-vars" := JStr "warn"]>
    (<["no-var" := JStr "error"]>
       (<["prefer-const" := JStr "error"]>
          (<["no-debugger" := JStr "error"]>
             (<["no-console" := noConsole nodeEnv]> ∅)))).

Definition astroRules (nodeEnv : option string) : gmap string Json :=
  <["no-unused-vars" := JStr "warn"]>
    (<["no-var" := JStr "error"]>
       (<["prefer-const" := JStr "error"]>
          (<["no-debugger" := JStr "error"]>
             (<["no-console" := noConsole nodeEnv]> ∅)))).

Definition unusedVarsSetting : Json :=
  JArr [JStr "warn";
        JObj [("argsIgnorePattern", JStr "^_");
              ("varsIgnorePattern", JStr "^_");
              ("caughtErrorsIgnorePattern", JStr "^_")]].

(** The [rules] object of the [**/*.{ts,tsx}] block:
    [...typescript.configs.recommended.rules] first, then the block's own
    keys.  The preset belongs to the plugin and is a parameter. *)
Definition tsRules (recommended : gmap string Json)
    (nodeEnv : option string) : gmap string Json :=
  <["@typescript-eslint/no-explicit-any" := JStr "warn"]>
    (<["@typescript-eslint/no-unused-vars" := unusedVarsSetting]>
       (<["no-var" := JStr "error"]>
          (<["prefer-const" := JStr "error"]>
             (<["no-debugger" := JStr "error"]>
                (<["no-console" := noConsole nodeEnv]> recommended))))).
End Eslint.

(** * Properties *)

(** ** Running a route symbolically *)

Lemma method_is_POST (request : Request) :
  method request = "POST" ->
  negb (String.eqb (method request) "POST") = false.
Proof. intros ->. reflexivity. Qed.

(** Unfold a route down to the helper interface. *)
Ltac unfold_route :=
  unfold Contact.POST, Contact.attempt, Contact.recover, Contact.OPTIONS,
         Newsletter.POST, Newsletter.attempt, Newsletter.recover,
         Newsletter.OPTIONS,
         Call.validateOrigin, Call.getClientIP, Call.checkRateLimit,
         Call.Date_now, Call.request_json, Call.validateContactForm,
         Call.validateNewsletterForm, Call.sendContactEmail,
         Call.sendNewsletterWelcome, Call.logError,
         Call.applySecurityHeaders,
         try_catch, bind, addCalls, record, ret, throw, stateful, fallible.

(** ** The origin check comes first *)

(** C1. A POST request whose origin [validateOrigin] rejects is answered 403
    by both routes, and the only helpers called for it are [validateOrigin]
    and [applySecurityHeaders]: the rate limiter, the body parser, the form
    validator and the email sender are not called, and the helper state is
    left as it was. *)
Theorem invalid_origin_answers_403_first
    {Env} (C : Collaborators Env) (request : Request) (env : Env) :
  method request = "POST" ->
  validateOrigin C request = false ->
  let rc := Contact.POST C request env in
  let rn := Newsletter.POST C request env in
  (outcome rc = Returned (applySecurityHeaders C Contact.invalidOrigin "api")
   /\ outcome rn
      = Returned (applySecurityHeaders C Newsletter.invalidOrigin "api"))
  /\ (forall response,
        outcome rc = Returned response \/ outcome rn = Returned response ->
        status response = 403)
  /\ calls rc = [EvValidateOrigin request;
                 EvApplySecurityHeaders Contact.invalidOrigin "api"]
  /\ calls rn = [EvValidateOrigin request;
                 EvApplySecurityHeaders Newsletter.invalidOrigin "api"]
  /\ (forall c,
        In c [CCheckRateLimit; CRequestJson; CValidateForm; CSendEmail] ->
        invoked c (calls rc) = false /\ invoked c (calls rn) = false)
  /\ envAfter rc = env /\ envAfter rn = env.
Proof.
  intros Hm Ho rc rn. subst rc rn. unfold_route.
  rewrite (method_is_POST _ Hm). cbn. rewrite Ho. cbn.
  repeat split; try reflexivity.
  - intros response [H | H]; injection H as <-; reflexivity.
  - cbn in H. intuition (subst; reflexivity).
  - cbn in H. intuition (subst; reflexivity).
Qed.

Lemma invalid_origin_answers_403_first_witness :
  let C := InMemory.collaborators 60000 5 in
  let request := InMemory.post "https://evil.example" "203.0.113.7" "good" in
  let env := InMemory.start 1000 0 false in
  method request = "POST" /\ validateOrigin C request = false /\
  calls (Contact.POST C request env)
  = [EvValidateOrigin request;
     EvApplySecurityHeaders Contact.invalidOrigin "api"].
Proof.
  intros C request env.
  split; [reflexivity | split; [reflexivity |]].
  apply (invalid_origin_answers_403_first C request env); reflexivity.
Defined.

(** Split a symbolic run on every decision the route takes. *)
Ltac split_paths :=
  repeat (cbn;
    match goal with
    | |- context [negb ?b] => destruct b eqn:?
    | |- context [match ?x with Returned _ => _ | Threw _ => _ end] =>
        destruct x eqn:?
    | |- context [fst ?p] => destruct p eqn:?
    end); cbn.

(** ** Which responses get the security headers *)

(** The contact route passes its 405, 403, 200 and 500 responses through
    [applySecurityHeaders]; the 429 and 400 responses are returned as
    built. *)
Lemma contact_security_headers_by_status
    {Env} (C : Collaborators Env) (request : Request) (env : Env) :
  exists response,
    outcome (Contact.POST C request env) = Returned response
    /\ In (status response) [405; 403; 429; 400; 200; 500]
    /\ invoked CApplySecurityHeaders (calls (Contact.POST C request env))
       = negb ((status response =? 429) || (status response =? 400)).
Proof.
  unfold_route. split_paths; eexists; (split; [reflexivity |]); cbn; tauto.
Qed.

(** C3. The contact route does not pass every response through
    [applySecurityHeaders]: for a client over its quota the 429 response,
    and for a body that fails validation the 400 response, come back as
    built, with no call to the helper, although the 405, 403, 200 and 500
    responses of the same handler all go through it. *)
Theorem contact_429_and_400_skip_security_headers :
  let C := InMemory.collaborators 60000 5 in
  let ip := "203.0.113.7" in
  let limited :=
    Contact.POST C (InMemory.post InMemory.siteOrigin ip "good")
                 (InMemory.busy 60000 5 5 ip 1000 0) in
  let invalid :=
    Contact.POST C (InMemory.post InMemory.siteOrigin ip "bad-email")
                 (InMemory.start 1000 0 false) in
  (outcome limited = Returned (Contact.tooManyRequests 60 60)
   /\ invoked CApplySecurityHeaders (calls limited) = false)
  /\ (outcome invalid
      = Returned (Contact.validationFailed ["email: not a valid address"])
      /\ invoked CApplySecurityHeaders (calls invalid) = false).
Proof. vm_compute. repeat split. Qed.

(** C4, counterexample.  The newsletter route does call
    [applySecurityHeaders] on an error path: a POST request from a foreign
    origin is answered 403 through the helper. *)
Lemma newsletter_403_goes_through_security_headers :
  let C := InMemory.collaborators 60000 5 in
  let request := InMemory.post "https://evil.example" "203.0.113.7" "good" in
  let r := Newsletter.POST C request (InMemory.start 1000 0 false) in
  (exists response, outcome r = Returned response /\ status response = 403)
  /\ invoked CApplySecurityHeaders (calls r) = true.
Proof. vm_compute. split; [eexists; split |]; reflexivity. Qed.

(** C4 (amended). The newsletter route always answers, with one of the six
    statuses; its response goes through [applySecurityHeaders] exactly when
    the status is 405 or 403, so the 429, 400, 200 and 500 responses do not.
    No response the POST handler builds carries a CORS header, neither the
    ones it returns as built nor the ones it hands to the helper; the OPTIONS
    handler answers with its own CORS headers and calls no helper at all. *)
Theorem newsletter_security_headers_by_status
    {Env} (C : Collaborators Env) (request : Request) (env : Env) :
  let r := Newsletter.POST C request env in
  (exists response,
      outcome r = Returned response
      /\ In (status response) [405; 403; 429; 400; 200; 500]
      /\ invoked CApplySecurityHeaders (calls r)
         = (status response =? 405) || (status response =? 403)
      /\ (invoked CApplySecurityHeaders (calls r) = false ->
          hasCorsHeader response = false))
  /\ (forall built kind,
        In (EvApplySecurityHeaders built kind) (calls r) ->
        hasCorsHeader built = false)
  /\ Newsletter.OPTIONS request env
     = {| outcome := Returned Newsletter.corsPreflight;
          envAfter := env;
          calls := [] |}
  /\ hasCorsHeader Newsletter.corsPreflight = true.
Proof.
  intros r. subst r. unfold_route.
  split_paths;
    (split;
     [ eexists; split; [reflexivity |]; cbn; intuition (try discriminate)
     | split;
       [ intros built kind Hin; cbn in Hin;
         repeat (destruct Hin as [Hin | Hin];
                 [ try discriminate; injection Hin as <- <-; reflexivity | ]);
         destruct Hin
       | split; reflexivity ] ]).
Qed.

Lemma newsletter_security_headers_by_status_witness :
  let C := InMemory.collaborators 60000 5 in
  let request := InMemory.post InMemory.siteOrigin "203.0.113.7" "good" in
  let r := Newsletter.POST C request (InMemory.start 1000 0 false) in
  exists response,
    outcome r = Returned response
    /\ status response = 200
    /\ invoked CApplySecurityHeaders (calls r) = false
    /\ hasCorsHeader response = false.
Proof.
  intros C request r.
  destruct (newsletter_security_headers_by_status
              C request (InMemory.start 1000 0 false))
    as [(response & Hout & _ & Hinv & Hcors) _].
  exists response.
  assert (Hr : response = Newsletter.subscribed 4)
    by (vm_compute in Hout; injection Hout as <-; reflexivity).
  subst response. fold r in Hinv, Hcors.
  split; [vm_compute; reflexivity |].
  split; [reflexivity |].
  split; [| apply Hcors]; vm_compute; reflexivity.
Defined.

(** ** Validation failures *)

(** C5. When the parsed body fails form validation, the route answers 400
    with [success: false] and the validator's messages as [details], and the
    email sender is not called.  (The body is parsed and validated only for
    a POST request that passed the origin check and the rate limiter.) *)
Theorem validation_failure_answers_400_without_email
    {Env} (C : Collaborators Env) (request : Request) (env : Env)
    (data : Json) :
  method request = "POST" ->
  validateOrigin C request = true ->
  allowed (fst (checkRateLimit C (getClientIP C request) env)) = true ->
  requestJson C request = Returned data ->
  (valid (validateContactForm C data) = false ->
   let r := Contact.POST C request env in
   let messages := errors (validateContactForm C data) in
   exists response,
     outcome r = Returned response
     /\ status response = 400
     /\ bodyField "success" response = Some (JBool false)
     /\ bodyField "details" response = Some (JArr (map JStr messages))
     /\ invoked CSendEmail (calls r) = false)
  /\ (valid (validateNewsletterForm C data) = false ->
      let r := Newsletter.POST C request env in
      let messages := errors (validateNewsletterForm C data) in
      exists response,
        outcome r = Returned response
        /\ status response = 400
        /\ bodyField "success" response = Some (JBool false)
        /\ bodyField "details" response = Some (JArr (map JStr messages))
        /\ invoked CSendEmail (calls r) = false).
Proof.
  intros Hm Ho Ha Hj.
  split; intros Hv r messages; subst r messages; unfold_route;
    rewrite (method_is_POST _ Hm); cbn; rewrite Ho; cbn; rewrite Ha; cbn;
    rewrite Hj; cbn; rewrite Hv; cbn;
    eexists; repeat split.
Qed.

Lemma validation_failure_answers_400_without_email_witness :
  let C := InMemory.collaborators 60000 5 in
  let request := InMemory.post InMemory.siteOrigin "203.0.113.7" "bad-email" in
  let env := InMemory.start 1000 0 false in
  let data := JObj [("email", JStr "not-an-email")] in
  (method request = "POST"
   /\ validateOrigin C request = true
   /\ allowed (fst (checkRateLimit C (getClientIP C request) env)) = true
   /\ requestJson C request = Returned data
   /\ valid (validateContactForm C data) = false
   /\ valid (validateNewsletterForm C data) = false)
  /\ invoked CSendEmail (calls (Contact.POST C request env)) = false
  /\ invoked CSendEmail (calls (Newsletter.POST C request env)) = false.
Proof.
  intros C request env data.
  assert (Hm : method request = "POST") by reflexivity.
  assert (Ho : validateOrigin C request = true) by (vm_compute; reflexivity).
  assert (Ha : allowed (fst (checkRateLimit C (getClientIP C request) env))
               = true) by (vm_compute; reflexivity).
  assert (Hj : requestJson C request = Returned data)
    by (vm_compute; reflexivity).
  assert (Hc : valid (validateContactForm C data) = false)
    by (vm_compute; reflexivity).
  assert (Hn : valid (validateNewsletterForm C data) = false)
    by (vm_compute; reflexivity).
  destruct (validation_failure_answers_400_without_email
              C request env data Hm Ho Ha Hj) as [Hcontact Hnews].
  destruct (Hcontact Hc) as (? & _ & _ & _ & _ & Hc').
  destruct (Hnews Hn) as (? & _ & _ & _ & _ & Hn').
  repeat split; assumption.
Defined.

(** ** Rate-limited requests *)

(** [ceilSeconds] is the ceiling of a thousandth. *)
Lemma ceilSeconds_is_ceiling (ms : Z) :
  1000 * (ceilSeconds ms - 1) < ms <= 1000 * ceilSeconds ms.
Proof.
  unfold ceilSeconds.
  pose proof (Z.div_mod (- ms) 1000 ltac:(lia)) as Hdiv.
  pose proof (Z.mod_pos_bound (- ms) 1000 ltac:(lia)) as Hmod.
  lia.
Qed.







(** ** Unexpected failures *)

(** A body that does not parse makes the [try] block throw, once the request
    has passed the origin check and the rate limiter. *)
Lemma unparsable_body_throws
    {Env} (C : Collaborators Env) (request : Request) (env : Env)
    (e : Thrown) :
  method request = "POST" ->
  validateOrigin C request = true ->
  allowed (fst (checkRateLimit C (getClientIP C request) env)) = true ->
  requestJson C request = Threw e ->
  outcome (Contact.attempt C request env) = Threw e
  /\ outcome (Newsletter.attempt C request env) = Threw e.
Proof.
  intros Hm Ho Ha Hj.
  split; unfold_route; rewrite (method_is_POST _ Hm); cbn; rewrite Ho; cbn;
    rewrite Ha; cbn; rewrite Hj; reflexivity.
Qed.

(** So does a failing email sender, after a successful validation. *)
Lemma failed_send_throws
    {Env} (C : Collaborators Env) (request : Request) (env : Env)
    (data : Json) (e : Thrown) :
  method request = "POST" ->
  validateOrigin C request = true ->
  let limit := checkRateLimit C (getClientIP C request) env in
  allowed (fst limit) = true ->
  requestJson C request = Returned data ->
  (valid (validateContactForm C data) = true ->
   fst (sendContactEmail C (sanitized (validateContactForm C data))
          (snd limit)) = Threw e ->
   outcome (Contact.attempt C request env) = Threw e)
  /\ (valid (validateNewsletterForm C data) = true ->
      fst (sendNewsletterWelcome C
             (sanitized (validateNewsletterForm C data)) (snd limit))
      = Threw e ->
      outcome (Newsletter.attempt C request env) = Threw e).
Proof.
  intros Hm Ho limit Ha Hj. subst limit.
  split; intros Hv Hs; unfold_route; rewrite (method_is_POST _ Hm); cbn;
    rewrite Ho; cbn; rewrite Ha; cbn; rewrite Hj; cbn; rewrite Hv; cbn;
    rewrite Hs; reflexivity.
Qed.

(** The [try] block throws in no other way. *)
Lemma attempt_throws_only_on_parse_or_send
    {Env} (C : Collaborators Env) (request : Request) (env : Env)
    (e : Thrown) :
  outcome (Contact.attempt C request env) = Threw e
  \/ outcome (Newsletter.attempt C request env) = Threw e ->
  requestJson C request = Threw e
  \/ invoked CSendEmail (calls (Contact.attempt C request env)
                         ++ calls (Newsletter.attempt C request env))%list
     = true.
Proof.
  intros [H | H]; revert H; unfold_route; split_paths;
    intros H; try discriminate H; try (injection H as <-);
    solve [left; reflexivity | right; reflexivity | discriminate].
Qed.

(** C7. When the [try] block of a route throws, the route logs what was
    thrown, the thrown [Error] itself or, for any other thrown value, a new
    [Error] whose message is the value's string rendering, with severity
    [high] and with its component name, action and endpoint, and answers 500
    with the fixed message; the response is the same whatever was thrown.
    This holds when the body does not parse or the email cannot be sent
    (first two parts, on [Collaborators]), and also when any other helper
    throws inside [try], provided the helpers that the [catch] block itself
    calls return (last two parts, on [Throwing.Helpers]). *)
Theorem exception_is_logged_and_answered_500
    {Env} (C : Collaborators Env) (H : Throwing.Helpers Env)
    (request : Request) (env : Env) (e : Thrown) :
  let logged :=
    match e with
    | ThrownError err => err
    | ThrownOther rendering => {| message := rendering |}
    end in
  let contactContext :=
    {| component := "contact-api";
       action := "form-submission";
       metadata := [("endpoint", "/api/contact")] |} in
  let newsletterContext :=
    {| component := "newsletter-api";
       action := "subscription";
       metadata := [("endpoint", "/api/newsletter")] |} in
  let generic :=
    Some (JObj [("success", JBool false);
                ("error",
                 JStr "Internal server error. Please try again later.")]) in
  (outcome (Contact.attempt C request env) = Threw e ->
   let r := Contact.POST C request env in
   outcome r
   = Returned (applySecurityHeaders C Contact.internalError "api")
   /\ calls r
      = (calls (Contact.attempt C request env)
         ++ [EvLogError logged contactContext "high";
             EvApplySecurityHeaders Contact.internalError "api"])%list)
  /\ (outcome (Newsletter.attempt C request env) = Threw e ->
      let r := Newsletter.POST C request env in
      outcome r = Returned Newsletter.internalError
      /\ calls r
         = (calls (Newsletter.attempt C request env)
            ++ [EvLogError logged newsletterContext "high"])%list)
  /\ (forall response,
        response = applySecurityHeaders C Contact.internalError "api"
        \/ response = Newsletter.internalError ->
        status response = 500 /\ body response = generic)
  /\ (outcome (Throwing.contactAttempt H request env) = Threw e ->
      let attempt := Throwing.contactAttempt H request env in
      let r := Throwing.contactPOST H request env in
      let log :=
        Throwing.logError H logged contactContext "high" (envAfter attempt) in
      forall hs,
        fst log = Returned tt ->
        fst (Throwing.securityHeaders H "api" jsonHeaders (snd log))
        = Returned hs ->
        outcome r
        = Returned {| body := generic; status := 500; headers := hs |}
        /\ calls r
           = (calls attempt
              ++ [EvLogError logged contactContext "high";
                  EvApplySecurityHeaders Contact.internalError "api"])%list)
  /\ (outcome (Throwing.newsletterAttempt H request env) = Threw e ->
      let attempt := Throwing.newsletterAttempt H request env in
      let r := Throwing.newsletterPOST H request env in
      fst (Throwing.logError H logged newsletterContext "high"
             (envAfter attempt)) = Returned tt ->
      outcome r
      = Returned {| body := generic; status := 500;
                    headers := [("Content-Type", "application/json")] |}
      /\ calls r
         = (calls attempt
            ++ [EvLogError logged newsletterContext "high"])%list).
Proof.
  intros logged contactContext newsletterContext generic.
  subst logged contactContext newsletterContext generic.
  split; [| split; [| split; [| split]]].
  - intros Hthrew r. subst r. unfold Contact.POST, try_catch.
    destruct (Contact.attempt C request env) as [o env' evs].
    cbn in Hthrew. subst o. split; reflexivity.
  - intros Hthrew r. subst r. unfold Newsletter.POST, try_catch.
    destruct (Newsletter.attempt C request env) as [o env' evs].
    cbn in Hthrew. subst o. split; reflexivity.
  - intros response [-> | ->]; split; reflexivity.
  - intros Hthrew attempt r log hs. subst attempt r log.
    unfold Throwing.contactPOST, try_catch.
    destruct (Throwing.contactAttempt H request env) as [o env' evs].
    cbn in Hthrew. subst o.
    unfold Throwing.contactRecover, Throwing.Call.logError,
           Throwing.Call.applySecurityHeaders,
           Throwing.applySecurityHeaders, asError, Contact.logContext,
           bind, addCalls, record, ret, fallible.
    cbn. intros Hlog Hinject. rewrite Hlog. cbn. rewrite Hinject.
    split; reflexivity.
  - intros Hthrew attempt r. subst attempt r.
    unfold Throwing.newsletterPOST, try_catch.
    destruct (Throwing.newsletterAttempt H request env) as [o env' evs].
    cbn in Hthrew. subst o.
    unfold Throwing.newsletterRecover, Throwing.Call.logError,
           asError, Newsletter.logContext,
           bind, addCalls, record, ret, fallible.
    cbn. intros Hlog. rewrite Hlog. split; reflexivity.
Qed.

(** Three failures: a body that does not parse (the parser throws an
    [Error]) on the contact route, a mail transport that is down (the sender
    throws a string) on the newsletter route, and a client address that
    cannot be determined ([getClientIP] throws a string) on the contact
    route. *)
Lemma exception_is_logged_and_answered_500_witness :
  let C := InMemory.collaborators 60000 5 in
  let fails c :=
    if Callee_eqb c CGetClientIP then Some (ThrownOther "no socket")
    else None in
  let H := withFaults fails (ofCollaborators C) in
  let ip := "203.0.113.7" in
  let unparsable := InMemory.post InMemory.siteOrigin ip "{oops" in
  let good := InMemory.post InMemory.siteOrigin ip "good" in
  let data := JObj [("name", JStr "A"); ("email", JStr "a@b.com");
                    ("message", JStr "hi")] in
  let up := InMemory.start 1000 0 false in
  let down := InMemory.start 1000 0 true in
  let syntaxError := {| message := "Unexpected token in JSON" |} in
  let contactContext :=
    {| component := "contact-api";
       action := "form-submission";
       metadata := [("endpoint", "/api/contact")] |} in
  let newsletterContext :=
    {| component := "newsletter-api";
       action := "subscription";
       metadata := [("endpoint", "/api/newsletter")] |} in
  (outcome (Contact.attempt C unparsable up) = Threw (ThrownError syntaxError)
   /\ outcome (Newsletter.attempt C good down)
      = Threw (ThrownOther "mail transport unavailable")
   /\ outcome (Throwing.contactAttempt H good up)
      = Threw (ThrownOther "no socket"))
  /\ outcome (Contact.POST C unparsable up)
     = Returned (applySecurityHeaders C Contact.internalError "api")
  /\ calls (Contact.POST C unparsable up)
     = [EvValidateOrigin unparsable; EvGetClientIP unparsable;
        EvCheckRateLimit ip; EvRequestJson unparsable;
        EvLogError syntaxError contactContext "high";
        EvApplySecurityHeaders Contact.internalError "api"]
  /\ outcome (Newsletter.POST C good down) = Returned Newsletter.internalError
  /\ calls (Newsletter.POST C good down)
     = [EvValidateOrigin good; EvGetClientIP good; EvCheckRateLimit ip;
        EvRequestJson good; EvValidateNewsletterForm data;
        EvSendNewsletterWelcome (Some data);
        EvLogError {| message := "mail transport unavailable" |}
          newsletterContext "high"]
  /\ outcome (Throwing.contactPOST H good up)
     = Returned (applySecurityHeaders C Contact.internalError "api")
  /\ calls (Throwing.contactPOST H good up)
     = [EvValidateOrigin good; EvGetClientIP good;
        EvLogError {| message := "no socket" |} contactContext "high";
        EvApplySecurityHeaders Contact.internalError "api"].
Proof.
  intros C fails H ip unparsable good data up down syntaxError
         contactContext newsletterContext.
  assert (Hc : outcome (Contact.attempt C unparsable up)
               = Threw (ThrownError syntaxError))
    by (vm_compute; reflexivity).
  assert (Hn : outcome (Newsletter.attempt C good down)
               = Threw (ThrownOther "mail transport unavailable"))
    by (vm_compute; reflexivity).
  assert (Hg : outcome (Throwing.contactAttempt H good up)
               = Threw (ThrownOther "no socket"))
    by (vm_compute; reflexivity).
  split; [auto |].
  destruct (exception_is_logged_and_answered_500
              C H unparsable up (ThrownError syntaxError))
    as (Hcontact & _).
  destruct (exception_is_logged_and_answered_500
              C H good down (ThrownOther "mail transport unavailable"))
    as (_ & Hnews & _).
  destruct (exception_is_logged_and_answered_500
              C H good up (ThrownOther "no socket"))
    as (_ & _ & _ & Hany & _).
  destruct (Hcontact Hc) as [Hout Hcalls].
  destruct (Hnews Hn) as [Hout' Hcalls'].
  destruct (Hany Hg (headers (applySecurityHeaders C Contact.internalError
                                "api")))
    as [Hout'' Hcalls''];
    [vm_compute; reflexivity | vm_compute; reflexivity |].
  split; [exact Hout |].
  split; [rewrite Hcalls; vm_compute; reflexivity |].
  split; [exact Hout' |].
  split; [rewrite Hcalls'; vm_compute; reflexivity |].
  split; [rewrite Hout''; reflexivity |].
  rewrite Hcalls''. vm_compute. reflexivity.
Defined.

(** ** Preflight *)

(** C8. The OPTIONS handlers answer every request alike, whatever its body,
    with status 200 and the fixed [Access-Control-Allow-*] headers (the
    contact route through [applySecurityHeaders], the newsletter route as
    built); they leave the helper state alone and call neither the origin
    check, the rate limiter, the clock, the body parser, a validator, the
    email sender nor the error log. *)
Theorem options_answers_static_preflight
    {Env} (C : Collaborators Env) (request : Request) (env : Env) :
  Contact.OPTIONS C request env
  = {| outcome := Returned (applySecurityHeaders C Contact.corsPreflight "api");
       envAfter := env;
       calls := [EvApplySecurityHeaders Contact.corsPreflight "api"] |}
  /\ Newsletter.OPTIONS request env
     = {| outcome := Returned Newsletter.corsPreflight;
          envAfter := env;
          calls := [] |}
  /\ status (applySecurityHeaders C Contact.corsPreflight "api") = 200
  /\ status Newsletter.corsPreflight = 200
  /\ headers (applySecurityHeaders C Contact.corsPreflight "api")
     = securityHeaders C "api"
         [("Access-Control-Allow-Origin", "https://johnciresi.com");
          ("Access-Control-Allow-Methods", "POST, OPTIONS");
          ("Access-Control-Allow-Headers", "Content-Type")]
  /\ headers Newsletter.corsPreflight
     = [("Access-Control-Allow-Origin", "*");
        ("Access-Control-Allow-Methods", "POST, OPTIONS");
        ("Access-Control-Allow-Headers", "Content-Type")]
  /\ (forall other : Request,
        Contact.OPTIONS C other env = Contact.OPTIONS C request env
        /\ Newsletter.OPTIONS other env = Newsletter.OPTIONS request env)
  /\ (forall c,
        c <> CApplySecurityHeaders ->
        invoked c (calls (Contact.OPTIONS C request env)) = false
        /\ invoked c (calls (Newsletter.OPTIONS request env)) = false).
Proof.
  repeat (split; [reflexivity |]).
  split; [intros other; split; reflexivity |].
  intros c Hc. destruct c; try contradiction; split; reflexivity.
Qed.

(** ** The quota is charged before the body is read *)

(** C9. A POST request that passes the origin check starts with exactly the
    calls [validateOrigin], [getClientIP], [checkRateLimit(clientIP)], so
    that every call to the body parser or a validator comes after the rate
    limiter's; and when the request then fails, because the body does not
    parse or does not validate, the helper state it leaves behind is the one
    [checkRateLimit] produced: the call it made to the limiter is not taken
    back. *)
Theorem rate_limit_is_charged_before_parsing
    {Env} (C : Collaborators Env) (request : Request) (env : Env) :
  method request = "POST" ->
  validateOrigin C request = true ->
  let clientIP := getClientIP C request in
  let limit := checkRateLimit C clientIP env in
  forall r validate,
    (r = Contact.POST C request env /\ validate = validateContactForm C)
    \/ (r = Newsletter.POST C request env
        /\ validate = validateNewsletterForm C) ->
    (exists rest,
        calls r = EvValidateOrigin request :: EvGetClientIP request
                  :: EvCheckRateLimit clientIP :: rest
        /\ invoked CRequestJson [EvValidateOrigin request;
                                 EvGetClientIP request] = false
        /\ invoked CValidateForm [EvValidateOrigin request;
                                  EvGetClientIP request] = false)
    /\ (allowed (fst limit) = true ->
        forall e,
          requestJson C request = Threw e ->
          envAfter r = snd limit
          /\ invoked CRequestJson (calls r) = true
          /\ exists response,
               outcome r = Returned response /\ status response = 500)
    /\ (allowed (fst limit) = true ->
        forall data,
          requestJson C request = Returned data ->
          valid (validate data) = false ->
          envAfter r = snd limit
          /\ invoked CValidateForm (calls r) = true
          /\ exists response,
               outcome r = Returned response /\ status response = 400).
Proof.
  intros Hm Ho clientIP limit r validate Hr. subst clientIP limit.
  destruct Hr as [[-> ->] | [-> ->]].
  - split; [| split].
    + unfold_route. rewrite (method_is_POST _ Hm). cbn. rewrite Ho.
      split_paths; eexists; repeat split.
    + intros Ha e Hj. unfold_route. rewrite (method_is_POST _ Hm). cbn.
      rewrite Ho. cbn. rewrite Ha. cbn. rewrite Hj. cbn.
      repeat split. eexists; split; reflexivity.
    + intros Ha data Hj Hv. unfold_route. rewrite (method_is_POST _ Hm). cbn.
      rewrite Ho. cbn. rewrite Ha. cbn. rewrite Hj. cbn. rewrite Hv. cbn.
      repeat split. eexists; split; reflexivity.
  - split; [| split].
    + unfold_route. rewrite (method_is_POST _ Hm). cbn. rewrite Ho.
      split_paths; eexists; repeat split.
    + intros Ha e Hj. unfold_route. rewrite (method_is_POST _ Hm). cbn.
      rewrite Ho. cbn. rewrite Ha. cbn. rewrite Hj. cbn.
      repeat split. eexists; split; reflexivity.
    + intros Ha data Hj Hv. unfold_route. rewrite (method_is_POST _ Hm). cbn.
      rewrite Ho. cbn. rewrite Ha. cbn. rewrite Hj. cbn. rewrite Hv. cbn.
      repeat split. eexists; split; reflexivity.
Qed.

Lemma rate_limit_is_charged_before_parsing_witness :
  let C := InMemory.collaborators 60000 5 in
  let ip := "203.0.113.7" in
  let request := InMemory.post InMemory.siteOrigin ip "{oops" in
  let env := InMemory.start 1000 0 false in
  let r := Newsletter.POST C request env in
  (method request = "POST" /\ validateOrigin C request = true)
  /\ (exists rest,
         calls r = EvValidateOrigin request :: EvGetClientIP request
                   :: EvCheckRateLimit ip :: rest)
  /\ InMemory.store (envAfter r) !! ip
     = Some {| RateLimiter.count := 1; RateLimiter.windowReset := 61000 |}.
Proof.
  intros C ip request env r.
  assert (Hm : method request = "POST") by reflexivity.
  assert (Ho : validateOrigin C request = true) by (vm_compute; reflexivity).
  split; [auto |].
  destruct (rate_limit_is_charged_before_parsing
              C request env Hm Ho r (validateNewsletterForm C)
              (or_intror (conj eq_refl eq_refl)))
    as ((rest & Hcalls & _) & Hparse & _).
  split; [exists rest; exact Hcalls |].
  destruct (Hparse eq_refl
              (ThrownError {| message := "Unexpected token in JSON" |})
              eq_refl) as (-> & _).
  vm_compute. reflexivity.
Defined.

(** With the in-memory limiter, a request whose body does not parse uses up
    one unit of the quota: the next, well-formed request of the same client
    is told that 3 of its 5 requests remain. *)
Example failed_request_counts_against_the_quota :
  let C := InMemory.collaborators 60000 5 in
  let ip := "203.0.113.7" in
  let failed :=
    Contact.POST C (InMemory.post InMemory.siteOrigin ip "{oops")
                 (InMemory.start 1000 0 false) in
  let next :=
    Contact.POST C (InMemory.post InMemory.siteOrigin ip "good")
                 (envAfter failed) in
  outcome failed
  = Returned (applySecurityHeaders C Contact.internalError "api")
  /\ outcome next
     = Returned (applySecurityHeaders C (Contact.messageSent 3) "api").
Proof. vm_compute. split; reflexivity. Qed.

(** ** The rate limiter's window accounting *)

Section RateLimiterFacts.
Import RateLimiter.
Variables (W Q : Z).

Lemma checkRateLimit_fresh (now : Z) (key : string)
    (store : gmap string RateLimitRecord) :
  store !! key = None
  \/ (exists r, store !! key = Some r /\ expired now r = true) ->
  checkRateLimit W Q now key store
  = ({| allowed := true; remaining := Q - 1; resetTime := now + W |},
     <[key := {| count := 1; windowReset := now + W |}]> store).
Proof.
  unfold checkRateLimit.
  intros [-> | (r & -> & ->)]; reflexivity.
Qed.

Lemma checkRateLimit_running (now : Z) (key : string)
    (store : gmap string RateLimitRecord) (r : RateLimitRecord) :
  store !! key = Some r ->
  expired now r = false ->
  checkRateLimit W Q now key store
  = ({| allowed := count r + 1 <=? Q;
        remaining := Z.max 0 (Q - (count r + 1));
        resetTime := windowReset r |},
     <[key := {| count := count r + 1; windowReset := windowReset r |}]>
       store).
Proof.
  unfold checkRateLimit. intros -> ->. reflexivity.
Qed.

(** Calls that all fall inside the current window count up from the
    recorded count and never move the end of the window. *)
Lemma checkEach_running (key : string) (times : list Z) :
  forall (store : gmap string RateLimitRecord) (r : RateLimitRecord),
    store !! key = Some r ->
    Forall (fun t => t < windowReset r) times ->
    checkEach W Q key times store
    = (map (fun i => nthAnswer Q (windowReset r) (count r + Z.of_nat i))
           (seq 1 (length times)),
       <[key := {| count := count r + Z.of_nat (length times);
                   windowReset := windowReset r |}]> store).
Proof.
  induction times as [| t later IH]; intros store r Hr Hin.
  - cbn. f_equal. symmetry. apply insert_id.
    rewrite Hr. destruct r as [c reset]. cbn. do 2 f_equal. lia.
  - apply Forall_cons in Hin as [Ht Hlater].
    cbn [checkEach].
    rewrite (checkRateLimit_running t key store r Hr)
      by (unfold expired; lia).
    rewrite (IH _ {| count := count r + 1; windowReset := windowReset r |})
      by (try apply lookup_insert_eq; exact Hlater).
    cbn [count windowReset length]. rewrite insert_insert_eq.
    f_equal.
    + cbn [seq map]. f_equal.
      rewrite <- (seq_shift _ 1), map_map. apply map_ext. intros i.
      f_equal. lia.
    + do 2 f_equal. lia.
Qed.

(** A client that fills one window: [Q] calls admitted, the next one
    rejected. *)
Lemma checkEach_one_window (key : string)
    (store : gmap string RateLimitRecord) (start : Z) (later : list Z) :
  0 < Q ->
  store !! key = None
  \/ (exists r, store !! key = Some r /\ expired start r = true) ->
  Z.of_nat (length later) = Q ->
  Forall (fun t => t < start + W) later ->
  fst (checkEach W Q key (start :: later) store)
  = (map (fun i => nthAnswer Q (start + W) (Z.of_nat i))
         (seq 1 (Z.to_nat Q))
     ++ [nthAnswer Q (start + W) (Q + 1)])%list.
Proof.
  intros HQ Hfresh Hlen Hin.
  cbn [checkEach]. rewrite (checkRateLimit_fresh start key store Hfresh).
  rewrite (checkEach_running key later _
             {| count := 1; windowReset := start + W |})
    by (try apply lookup_insert_eq; exact Hin).
  cbn [fst count windowReset].
  replace (length later) with (Z.to_nat Q) by lia.
  set (n := Z.to_nat Q).
  set (answer := fun i : nat => nthAnswer Q (start + W) (Z.of_nat i)).
  replace (map _ (seq 1 n)) with (map answer (seq 2 n)).
  2:{ rewrite <- (seq_shift _ 1), map_map. apply map_ext. intros i.
      unfold answer. f_equal. lia. }
  replace {| allowed := true; remaining := Q - 1; resetTime := start + W |}
    with (answer 1%nat).
  2:{ unfold answer, nthAnswer. f_equal; [apply Z.leb_le |]; lia. }
  change (answer 1%nat :: map answer (seq 2 n))
    with (map answer (seq 1 (S n))).
  rewrite seq_S, map_app. cbn [map]. unfold answer at 2.
  do 3 f_equal. lia.
Qed.
End RateLimiterFacts.

(** C2. For every client key (the empty one included, which callers never
    pass): [checkRateLimit] starts a new window with count 1, allowed and
    [Q - 1] remaining when the key has no record or its window has expired;
    otherwise it increments the count, allows the call iff the new count is
    at most [Q] and reports [max(0, Q - count)] remaining.  Hence, for a
    positive quota, of [Q + 1] calls in one window the first [Q] are answered
    in turn and the last one is rejected, with a [resetTime] (the end of the
    window) later than the time of that call. *)
Theorem checkRateLimit_window_accounting (W Q : Z) :
  0 < Q ->
  (forall now key (store : gmap string RateLimiter.RateLimitRecord),
      store !! key = None
      \/ (exists r,
            store !! key = Some r /\ RateLimiter.expired now r = true) ->
      RateLimiter.checkRateLimit W Q now key store
      = ({| allowed := true; remaining := Q - 1; resetTime := now + W |},
         <[key := {| RateLimiter.count := 1;
                     RateLimiter.windowReset := now + W |}]> store))
  /\ (forall now key (store : gmap string RateLimiter.RateLimitRecord) r,
        store !! key = Some r ->
        RateLimiter.expired now r = false ->
        let n := RateLimiter.count r + 1 in
        RateLimiter.checkRateLimit W Q now key store
        = ({| allowed := n <=? Q;
              remaining := Z.max 0 (Q - n);
              resetTime := RateLimiter.windowReset r |},
           <[key := {| RateLimiter.count := n;
                       RateLimiter.windowReset := RateLimiter.windowReset r
                    |}]> store))
  /\ (forall key (store : gmap string RateLimiter.RateLimitRecord)
             start later,
        store !! key = None
        \/ (exists r,
              store !! key = Some r /\ RateLimiter.expired start r = true) ->
        Z.of_nat (length later) = Q ->
        Forall (fun t => t < start + W) later ->
        exists admitted rejected,
          fst (RateLimiter.checkEach W Q key (start :: later) store)
          = (admitted ++ [rejected])%list
          /\ Z.of_nat (length admitted) = Q
          /\ Forall (fun res => allowed res = true) admitted
          /\ allowed rejected = false
          /\ remaining rejected = 0
          /\ resetTime rejected = start + W
          /\ forall now, last later = Some now -> now < resetTime rejected).
Proof.
  intros HQ. split; [| split].
  - intros now key store. apply checkRateLimit_fresh.
  - intros now key store r Hr Hexp n. subst n.
    apply checkRateLimit_running; assumption.
  - intros key store start later Hfresh Hlen Hin.
    eexists _, _. split; [apply checkEach_one_window; assumption |].
    split; [rewrite length_map, length_seq; lia |].
    split.
    { apply Forall_map, Forall_forall. intros i Hi.
      apply elem_of_seq in Hi. cbn. apply Z.leb_le. lia. }
    split; [cbn; apply Z.leb_gt; lia |].
    split; [cbn; lia |].
    split; [reflexivity |].
    intros now Hlast. cbn.
    apply last_Some_elem_of in Hlast.
    rewrite Forall_forall in Hin. apply Hin, Hlast.
Qed.

Lemma checkRateLimit_window_accounting_witness :
  0 < 2
  /\ fst (RateLimiter.checkEach 60000 2 "203.0.113.7" [1000; 1500; 2000] ∅)
     = [ {| allowed := true; remaining := 1; resetTime := 61000 |};
         {| allowed := true; remaining := 0; resetTime := 61000 |};
         {| allowed := false; remaining := 0; resetTime := 61000 |} ]
  /\ exists admitted rejected,
       fst (RateLimiter.checkEach 60000 2 "203.0.113.7" [1000; 1500; 2000] ∅)
       = (admitted ++ [rejected])%list
       /\ allowed rejected = false
       /\ 2000 < resetTime rejected.
Proof.
  assert (HQ : 0 < 2) by lia.
  split; [exact HQ |]. split; [vm_compute; reflexivity |].
  destruct (checkRateLimit_window_accounting 60000 2 HQ) as (_ & _ & Hwin).
  destruct (Hwin "203.0.113.7" ∅ 1000 [1500; 2000])
    as (admitted & rejected & Heq & _ & _ & Hrej & _ & _ & Hfuture).
  - left. apply lookup_empty.
  - reflexivity.
  - repeat constructor; lia.
  - exists admitted, rejected. split; [exact Heq |]. split; [exact Hrej |].
    apply Hfuture. reflexivity.
Defined.

(** * Further properties of the routes *)

(** ** The method check *)

Lemma method_is_not_POST (request : Request) :
  method request <> "POST" ->
  negb (String.eqb (method request) "POST") = true.
Proof.
  intros H. apply negb_true_iff, String.eqb_neq, H.
Qed.

(** X1. A request whose method is not [POST] is answered 405 by both POST
    handlers, through [applySecurityHeaders] and with no other helper call:
    the origin is not even checked, and the helper state is left alone. *)
Theorem other_methods_answer_405
    {Env} (C : Collaborators Env) (request : Request) (env : Env) :
  method request <> "POST" ->
  Contact.POST C request env
  = {| outcome :=
         Returned (applySecurityHeaders C Contact.methodNotAllowed "api");
       envAfter := env;
       calls := [EvApplySecurityHeaders Contact.methodNotAllowed "api"] |}
  /\ Newsletter.POST C request env
     = {| outcome :=
            Returned (applySecurityHeaders C Newsletter.methodNotAllowed "api");
          envAfter := env;
          calls := [EvApplySecurityHeaders Newsletter.methodNotAllowed "api"]
       |}
  /\ status (applySecurityHeaders C Contact.methodNotAllowed "api") = 405
  /\ status (applySecurityHeaders C Newsletter.methodNotAllowed "api") = 405.
Proof.
  intros Hm. unfold_route. rewrite (method_is_not_POST _ Hm).
  repeat split.
Qed.

Lemma other_methods_answer_405_witness :
  let C := InMemory.collaborators 60000 5 in
  let request :=
    {| method := "GET";
       reqHeaders := [("origin", "https://evil.example")];
       reqBody := "" |} in
  let env := InMemory.start 1000 0 false in
  method request <> "POST"
  /\ calls (Contact.POST C request env)
     = [EvApplySecurityHeaders Contact.methodNotAllowed "api"].
Proof.
  intros C request env.
  assert (Hm : method request <> "POST") by discriminate.
  split; [exact Hm |].
  destruct (other_methods_answer_405 C request env Hm) as (-> & _).
  reflexivity.
Defined.

(** ** The accepted submission *)

(** X2. A POST request that passes the origin check, is admitted by the rate
    limiter, parses, validates and is mailed without error is answered 200
    with [success: true] and the limiter's [remaining].  The validator gets
    the parsed body, the email sender gets the validator's sanitized data and
    is called once, after the validator; the helper state that remains is the
    sender's.  The contact route passes the response through
    [applySecurityHeaders]; the newsletter route returns it as built. *)
Theorem accepted_submission_is_mailed_and_answered_200
    {Env} (C : Collaborators Env) (request : Request) (env : Env)
    (data : Json) :
  method request = "POST" ->
  validateOrigin C request = true ->
  let clientIP := getClientIP C request in
  let limit := checkRateLimit C clientIP env in
  allowed (fst limit) = true ->
  requestJson C request = Returned data ->
  (let v := validateContactForm C data in
   let sent := sendContactEmail C (sanitized v) (snd limit) in
   let built := Contact.messageSent (remaining (fst limit)) in
   valid v = true ->
   fst sent = Returned tt ->
   Contact.POST C request env
   = {| outcome := Returned (applySecurityHeaders C built "api");
        envAfter := snd sent;
        calls := [EvValidateOrigin request; EvGetClientIP request;
                  EvCheckRateLimit clientIP; EvRequestJson request;
                  EvValidateContactForm data;
                  EvSendContactEmail (sanitized v);
                  EvApplySecurityHeaders built "api"] |}
   /\ status (applySecurityHeaders C built "api") = 200
   /\ bodyField "success" (applySecurityHeaders C built "api")
      = Some (JBool true)
   /\ bodyField "remaining" (applySecurityHeaders C built "api")
      = Some (JNum (remaining (fst limit))))
  /\ (let v := validateNewsletterForm C data in
      let sent := sendNewsletterWelcome C (sanitized v) (snd limit) in
      let built := Newsletter.subscribed (remaining (fst limit)) in
      valid v = true ->
      fst sent = Returned tt ->
      Newsletter.POST C request env
      = {| outcome := Returned built;
           envAfter := snd sent;
           calls := [EvValidateOrigin request; EvGetClientIP request;
                     EvCheckRateLimit clientIP; EvRequestJson request;
                     EvValidateNewsletterForm data;
                     EvSendNewsletterWelcome (sanitized v)] |}
      /\ status built = 200
      /\ bodyField "success" built = Some (JBool true)
      /\ bodyField "remaining" built = Some (JNum (remaining (fst limit)))).
Proof.
  intros Hm Ho clientIP limit Ha Hj. subst clientIP limit.
  split; intros v sent built Hv Hs; subst v sent built; unfold_route;
    rewrite (method_is_POST _ Hm); cbn; rewrite Ho; cbn; rewrite Ha; cbn;
    rewrite Hj; cbn; rewrite Hv; cbn; rewrite Hs; cbn;
    repeat split.
Qed.

Lemma accepted_submission_is_mailed_and_answered_200_witness :
  let C := InMemory.collaborators 60000 5 in
  let request := InMemory.post InMemory.siteOrigin "203.0.113.7" "good" in
  let env := InMemory.start 1000 0 false in
  let data := JObj [("name", JStr "A"); ("email", JStr "a@b.com");
                    ("message", JStr "hi")] in
  let limit := checkRateLimit C (getClientIP C request) env in
  (method request = "POST"
   /\ validateOrigin C request = true
   /\ allowed (fst limit) = true
   /\ requestJson C request = Returned data
   /\ valid (validateContactForm C data) = true
   /\ fst (sendContactEmail C (sanitized (validateContactForm C data))
             (snd limit)) = Returned tt)
  /\ outcome (Contact.POST C request env)
     = Returned (applySecurityHeaders C (Contact.messageSent 4) "api")
  /\ InMemory.outbox (envAfter (Contact.POST C request env)) = [Some data].
Proof.
  intros C request env data limit.
  assert (Hm : method request = "POST") by reflexivity.
  assert (Ho : validateOrigin C request = true) by (vm_compute; reflexivity).
  assert (Ha : allowed (fst limit) = true) by (vm_compute; reflexivity).
  assert (Hj : requestJson C request = Returned data)
    by (vm_compute; reflexivity).
  assert (Hv : valid (validateContactForm C data) = true)
    by (vm_compute; reflexivity).
  assert (Hs : fst (sendContactEmail C
                      (sanitized (validateContactForm C data)) (snd limit))
               = Returned tt) by (vm_compute; reflexivity).
  split; [repeat split; assumption |].
  destruct (accepted_submission_is_mailed_and_answered_200
              C request env data Hm Ho Ha Hj) as [Hcontact _].
  destruct (Hcontact Hv Hs) as (-> & _).
  split; vm_compute; reflexivity.
Defined.

(** ** What a rejected client costs *)

(** X5. For a POST request the rate limiter rejects, both routes stop after
    the limiter: the only later calls are the two clock readings for the
    retry delay, so the body is not read and nothing is validated, mailed,
    logged or passed to [applySecurityHeaders]; the helper state is the
    limiter's, advanced by the two readings. *)
Theorem rate_limited_request_is_not_processed
    {Env} (C : Collaborators Env) (request : Request) (env : Env) :
  method request = "POST" ->
  validateOrigin C request = true ->
  let clientIP := getClientIP C request in
  let limit := checkRateLimit C clientIP env in
  allowed (fst limit) = false ->
  forall r,
    r = Contact.POST C request env \/ r = Newsletter.POST C request env ->
    calls r = [EvValidateOrigin request; EvGetClientIP request;
               EvCheckRateLimit clientIP; EvDateNow; EvDateNow]
    /\ envAfter r = snd (dateNow C (snd (dateNow C (snd limit)))).
Proof.
  intros Hm Ho clientIP limit Ha r Hr. subst clientIP limit.
  destruct Hr as [-> | ->]; unfold_route;
    rewrite (method_is_POST _ Hm); cbn; rewrite Ho; cbn; rewrite Ha; cbn;
    split; reflexivity.
Qed.

Lemma rate_limited_request_is_not_processed_witness :
  let C := InMemory.collaborators 60000 5 in
  let ip := "203.0.113.7" in
  let request := InMemory.post InMemory.siteOrigin ip "good" in
  let env := InMemory.busy 60000 5 5 ip 1000 250 in
  (method request = "POST"
   /\ validateOrigin C request = true
   /\ allowed (fst (checkRateLimit C (getClientIP C request) env)) = false)
  /\ invoked CRequestJson (calls (Contact.POST C request env)) = false
  /\ InMemory.clock (envAfter (Contact.POST C request env)) = 1750.
Proof.
  intros C ip request env.
  assert (Hm : method request = "POST") by reflexivity.
  assert (Ho : validateOrigin C request = true) by (vm_compute; reflexivity).
  assert (Ha : allowed (fst (checkRateLimit C (getClientIP C request) env))
               = false) by (vm_compute; reflexivity).
  split; [auto |].
  destruct (rate_limited_request_is_not_processed
              C request env Hm Ho Ha (Contact.POST C request env)
              (or_introl eq_refl)) as [-> ->].
  split; vm_compute; reflexivity.
Defined.

(** ** Logging and mailing, by status *)

(** X6. [logError] is called exactly for the responses of status 500, and
    then once: the expected rejections (405, 403, 429, 400) and the accepted
    submission are never logged as errors. *)
Theorem errors_are_logged_exactly_for_500
    {Env} (C : Collaborators Env) (request : Request) (env : Env) :
  forall r,
    r = Contact.POST C request env \/ r = Newsletter.POST C request env ->
    exists response,
      outcome r = Returned response
      /\ invoked CLogError (calls r) = (status response =? 500)
      /\ countCalls CLogError (calls r)
         = if status response =? 500 then 1%nat else 0%nat.
Proof.
  intros r [-> | ->]; unfold_route; split_paths;
    eexists; repeat split.
Qed.

Lemma errors_are_logged_exactly_for_500_witness :
  let C := InMemory.collaborators 60000 5 in
  let request := InMemory.post InMemory.siteOrigin "203.0.113.7" "good" in
  let env := InMemory.start 1000 0 true in
  exists response,
    outcome (Contact.POST C request env) = Returned response
    /\ status response = 500
    /\ countCalls CLogError (calls (Contact.POST C request env)) = 1%nat.
Proof.
  intros C request env.
  destruct (errors_are_logged_exactly_for_500
              C request env (Contact.POST C request env) (or_introl eq_refl))
    as (response & Hout & _ & Hcount).
  exists response.
  assert (Hst : status response = 500)
    by (vm_compute in Hout; injection Hout as <-; reflexivity).
  rewrite Hst in Hcount. repeat split; assumption.
Defined.

(** X7. The email sender is called at most once per request, never for a
    response of status 405, 403, 429 or 400, and exactly once for a response
    of status 200: a success is never reported without a send, and a send is
    never retried. *)
Theorem email_is_sent_at_most_once
    {Env} (C : Collaborators Env) (request : Request) (env : Env) :
  forall r,
    r = Contact.POST C request env \/ r = Newsletter.POST C request env ->
    exists response,
      outcome r = Returned response
      /\ (countCalls CSendEmail (calls r) <= 1)%nat
      /\ (status response = 200 -> countCalls CSendEmail (calls r) = 1%nat)
      /\ (In (status response) [405; 403; 429; 400] ->
          countCalls CSendEmail (calls r) = 0%nat).
Proof.
  intros r [-> | ->]; unfold_route; split_paths;
    eexists; (split; [reflexivity |]); cbn;
    repeat split; intros; try lia; try discriminate;
    repeat match goal with
           | H : _ \/ _ |- _ => destruct H
           end; try discriminate; try contradiction.
Qed.

Lemma email_is_sent_at_most_once_witness :
  let C := InMemory.collaborators 60000 5 in
  let request := InMemory.post InMemory.siteOrigin "203.0.113.7" "good" in
  let env := InMemory.start 1000 0 false in
  exists response,
    outcome (Newsletter.POST C request env) = Returned response
    /\ status response = 200
    /\ countCalls CSendEmail (calls (Newsletter.POST C request env)) = 1%nat.
Proof.
  intros C request env.
  destruct (email_is_sent_at_most_once
              C request env (Newsletter.POST C request env)
              (or_intror eq_refl))
    as (response & Hout & _ & Hsent & _).
  exists response.
  assert (Hst : status response = 200)
    by (vm_compute in Hout; injection Hout as <-; reflexivity).
  repeat split; auto.
Defined.

(** ** The shape of the body *)

(** X8. Every response of a POST handler has a JSON body whose [success]
    member tells whether the status is 200; a 200 body carries a [message]
    and no [error], every other body an [error] and no [message]. *)
Theorem body_reports_success_by_status
    {Env} (C : Collaborators Env) (request : Request) (env : Env) :
  forall r,
    r = Contact.POST C request env \/ r = Newsletter.POST C request env ->
    exists response,
      outcome r = Returned response
      /\ bodyField "success" response
         = Some (JBool (status response =? 200))
      /\ (status response = 200 ->
          bodyField "error" response = None
          /\ exists text, bodyField "message" response = Some (JStr text))
      /\ (status response <> 200 ->
          bodyField "message" response = None
          /\ exists text, bodyField "error" response = Some (JStr text)).
Proof.
  intros r [-> | ->]; unfold_route; split_paths;
    eexists; (split; [reflexivity |]); cbn;
    repeat split; intros; try discriminate; try contradiction;
    try (eexists; reflexivity).
Qed.

Lemma body_reports_success_by_status_witness :
  let C := InMemory.collaborators 60000 5 in
  let request := InMemory.post "https://evil.example" "203.0.113.7" "good" in
  let env := InMemory.start 1000 0 false in
  exists response,
    outcome (Contact.POST C request env) = Returned response
    /\ bodyField "success" response = Some (JBool false)
    /\ bodyField "error" response = Some (JStr "Invalid origin").
Proof.
  intros C request env.
  destruct (body_reports_success_by_status
              C request env (Contact.POST C request env) (or_introl eq_refl))
    as (response & Hout & Hsuccess & _).
  exists response. split; [exact Hout |].
  assert (Hr : response = applySecurityHeaders C Contact.invalidOrigin "api")
    by (vm_compute in Hout; injection Hout as <-; reflexivity).
  rewrite Hsuccess. subst response. split; reflexivity.
Defined.

(** ** The two routes are one pipeline *)

(** X9. When the two validators and the two email senders behave alike, the
    contact and the newsletter route treat a request alike: same status,
    same [success], same helper state afterwards, and the same helpers
    called in the same order, the calls to [applySecurityHeaders] apart. *)
Theorem routes_share_one_pipeline
    {Env} (C : Collaborators Env) (request : Request) (env : Env) :
  (forall data, validateContactForm C data = validateNewsletterForm C data) ->
  (forall data env',
      sendContactEmail C data env' = sendNewsletterWelcome C data env') ->
  let rc := Contact.POST C request env in
  let rn := Newsletter.POST C request env in
  (exists c n,
      outcome rc = Returned c /\ outcome rn = Returned n
      /\ status c = status n
      /\ bodyField "success" c = bodyField "success" n)
  /\ envAfter rc = envAfter rn
  /\ map callee (withoutHeaderCalls (calls rc))
     = map callee (withoutHeaderCalls (calls rn)).
Proof.
  intros Hv Hs rc rn. subst rc rn. unfold_route.
  repeat (cbn; rewrite ?Hv, ?Hs;
          match goal with
          | |- context [negb ?b] => destruct b eqn:?
          | |- context [match ?x with Returned _ => _ | Threw _ => _ end] =>
              destruct x eqn:?
          | |- context [fst ?p] => destruct p eqn:?
          end);
    cbn; (split; [do 2 eexists |]); repeat split.
Qed.

Lemma routes_share_one_pipeline_witness :
  let C := InMemory.collaborators 60000 5 in
  let request := InMemory.post InMemory.siteOrigin "203.0.113.7" "good" in
  let env := InMemory.start 1000 0 true in
  (forall data, validateContactForm C data = validateNewsletterForm C data)
  /\ (forall data env',
        sendContactEmail C data env' = sendNewsletterWelcome C data env')
  /\ envAfter (Contact.POST C request env)
     = envAfter (Newsletter.POST C request env).
Proof.
  intros C request env.
  assert (Hv : forall data,
             validateContactForm C data = validateNewsletterForm C data)
    by reflexivity.
  assert (Hs : forall data env',
             sendContactEmail C data env' = sendNewsletterWelcome C data env')
    by reflexivity.
  split; [exact Hv |]. split; [exact Hs |].
  apply (routes_share_one_pipeline C request env Hv Hs).
Defined.

(** ** The retry delay *)

(** X10. The delay put in a 429 response is the least whole number of
    seconds that is enough: counted from the clock reading it was computed
    at, [k] seconds reach [resetTime] exactly when [k] is at least the
    delay. *)
Theorem retry_delay_is_the_least_sufficient_wait (reset now k : Z) :
  reset <= now + 1000 * k <-> ceilSeconds (reset - now) <= k.
Proof.
  pose proof (ceilSeconds_is_ceiling (reset - now)). lia.
Qed.

(** ** The lint rules *)

(** X11. In the TypeScript block the block's own six keys replace whatever
    the plugin's recommended preset says about them, and every other rule of
    the preset comes through unchanged: whatever the preset, [no-debugger],
    [prefer-const] and [no-var] are errors, [@typescript-eslint/no-explicit-any]
    is a warning, [@typescript-eslint/no-unused-vars] is a warning that
    ignores names starting with an underscore, and [no-console] is an error
    when [NODE_ENV] is [production] and off otherwise.  The JavaScript and
    Astro blocks set the same four core rules to the same values, warn on
    [no-unused-vars] and set nothing else. *)
Theorem own_rules_override_the_preset
    (recommended : gmap string Json) (nodeEnv : option string) :
  let console :=
    if bool_decide (nodeEnv = Some "production")
    then JStr "error" else JStr "off" in
  let core :=
    [("no-console", console); ("no-debugger", JStr "error");
     ("prefer-const", JStr "error"); ("no-var", JStr "error")] in
  let tsOwn :=
    (core
     ++ [("@typescript-eslint/no-unused-vars",
          JArr [JStr "warn";
                JObj [("argsIgnorePattern", JStr "^_");
                      ("varsIgnorePattern", JStr "^_");
                      ("caughtErrorsIgnorePattern", JStr "^_")]]);
         ("@typescript-eslint/no-explicit-any", JStr "warn")])%list in
  let jsOwn := (core ++ [("no-unused-vars", JStr "warn")])%list in
  (forall name,
      Eslint.tsRules recommended nodeEnv !! name
      = match lookupBy name tsOwn with
        | Some setting => Some setting
        | None => recommended !! name
        end)
  /\ (forall name,
        Eslint.jsRules nodeEnv !! name = lookupBy name jsOwn
        /\ Eslint.astroRules nodeEnv !! name = lookupBy name jsOwn).
Proof.
  intros console core tsOwn jsOwn.
  assert (Hconsole : Eslint.noConsole nodeEnv = console).
  { subst console. unfold Eslint.noConsole.
    destruct nodeEnv as [v |]; [| reflexivity].
    destruct (String.eqb_spec v "production") as [-> | Hne].
    - reflexivity.
    - rewrite bool_decide_eq_false_2 by congruence. reflexivity. }
  subst tsOwn jsOwn core.
  unfold Eslint.tsRules, Eslint.jsRules, Eslint.astroRules,
         Eslint.unusedVarsSetting, lookupBy.
  rewrite Hconsole. clear Hconsole.
  split; [intros name | intros name; split]; cbn [app find option_map fst snd];
    repeat match goal with
           | |- context [String.eqb ?k ?n] =>
               destruct (String.eqb_spec k n) as [<- | ?];
               [ simplify_map_eq; reflexivity
               | rewrite lookup_insert_ne by assumption ]
           end;
    cbn; try rewrite lookup_empty; reflexivity.
Qed.

(** ** A failing email sender *)

(** X12. When the email sender throws for an admitted, valid submission, the
    route logs what was thrown (an [Error] as it is, any other value as a new
    [Error] with the value's string rendering as message) with severity
    [high] and the route's context, and answers the generic 500: no success
    is reported, the send is not tried again, and the helper state is the one
    the sender left (the limiter's count for the request included). *)
Theorem failed_send_is_logged_and_answered_500
    {Env} (C : Collaborators Env) (request : Request) (env : Env)
    (data : Json) (e : Thrown) :
  method request = "POST" ->
  validateOrigin C request = true ->
  let clientIP := getClientIP C request in
  let limit := checkRateLimit C clientIP env in
  let logged :=
    match e with
    | ThrownError err => err
    | ThrownOther rendering => {| message := rendering |}
    end in
  allowed (fst limit) = true ->
  requestJson C request = Returned data ->
  (let v := validateContactForm C data in
   let sent := sendContactEmail C (sanitized v) (snd limit) in
   valid v = true ->
   fst sent = Threw e ->
   Contact.POST C request env
   = {| outcome :=
          Returned (applySecurityHeaders C Contact.internalError "api");
        envAfter := snd sent;
        calls := [EvValidateOrigin request; EvGetClientIP request;
                  EvCheckRateLimit clientIP; EvRequestJson request;
                  EvValidateContactForm data;
                  EvSendContactEmail (sanitized v);
                  EvLogError logged
                    {| component := "contact-api";
                       action := "form-submission";
                       metadata := [("endpoint", "/api/contact")] |}
                    "high";
                  EvApplySecurityHeaders Contact.internalError "api"] |}
   /\ status (applySecurityHeaders C Contact.internalError "api") = 500
   /\ bodyField "success"
        (applySecurityHeaders C Contact.internalError "api")
      = Some (JBool false))
  /\ (let v := validateNewsletterForm C data in
      let sent := sendNewsletterWelcome C (sanitized v) (snd limit) in
      valid v = true ->
      fst sent = Threw e ->
      Newsletter.POST C request env
      = {| outcome := Returned Newsletter.internalError;
           envAfter := snd sent;
           calls := [EvValidateOrigin request; EvGetClientIP request;
                     EvCheckRateLimit clientIP; EvRequestJson request;
                     EvValidateNewsletterForm data;
                     EvSendNewsletterWelcome (sanitized v);
                     EvLogError logged
                       {| component := "newsletter-api";
                          action := "subscription";
                          metadata := [("endpoint", "/api/newsletter")] |}
                       "high"] |}
      /\ status Newsletter.internalError = 500
      /\ bodyField "success" Newsletter.internalError = Some (JBool false)).
Proof.
  intros Hm Ho clientIP limit logged Ha Hj. subst clientIP limit logged.
  split; intros v sent Hv Hs; subst v sent; unfold_route;
    rewrite (method_is_POST _ Hm); cbn; rewrite Ho; cbn; rewrite Ha; cbn;
    rewrite Hj; cbn; rewrite Hv; cbn; rewrite Hs; repeat split.
Qed.

Lemma failed_send_is_logged_and_answered_500_witness :
  let C := InMemory.collaborators 60000 5 in
  let ip := "203.0.113.7" in
  let request := InMemory.post InMemory.siteOrigin ip "good" in
  let env := InMemory.start 1000 0 true in
  let data := JObj [("name", JStr "A"); ("email", JStr "a@b.com");
                    ("message", JStr "hi")] in
  let e := ThrownOther "mail transport unavailable" in
  let limit := checkRateLimit C (getClientIP C request) env in
  (method request = "POST"
   /\ validateOrigin C request = true
   /\ allowed (fst limit) = true
   /\ requestJson C request = Returned data
   /\ valid (validateNewsletterForm C data) = true
   /\ fst (sendNewsletterWelcome C
             (sanitized (validateNewsletterForm C data)) (snd limit))
      = Threw e)
  /\ outcome (Newsletter.POST C request env)
     = Returned Newsletter.internalError
  /\ last (calls (Newsletter.POST C request env))
     = Some (EvLogError {| message := "mail transport unavailable" |}
               {| component := "newsletter-api";
                  action := "subscription";
                  metadata := [("endpoint", "/api/newsletter")] |}
               "high")
  /\ InMemory.store (envAfter (Newsletter.POST C request env)) !! ip
     = Some {| RateLimiter.count := 1; RateLimiter.windowReset := 61000 |}.
Proof.
  intros C ip request env data e limit.
  assert (Hm : method request = "POST") by reflexivity.
  assert (Ho : validateOrigin C request = true) by (vm_compute; reflexivity).
  assert (Ha : allowed (fst limit) = true) by (vm_compute; reflexivity).
  assert (Hj : requestJson C request = Returned data)
    by (vm_compute; reflexivity).
  assert (Hv : valid (validateNewsletterForm C data) = true)
    by (vm_compute; reflexivity).
  assert (Hs : fst (sendNewsletterWelcome C
                      (sanitized (validateNewsletterForm C data))
                      (snd limit)) = Threw e) by (vm_compute; reflexivity).
  split; [repeat split; assumption |].
  destruct (failed_send_is_logged_and_answered_500
              C request env data e Hm Ho Ha Hj) as [_ Hnews].
  destruct (Hnews Hv Hs) as (-> & _).
  repeat split; vm_compute; reflexivity.
Defined.

(** * The routes when any helper may throw *)

Ltac unfold_throwing :=
  unfold Throwing.contactPOST, Throwing.contactAttempt,
         Throwing.contactRecover, Throwing.newsletterPOST,
         Throwing.newsletterAttempt, Throwing.newsletterRecover,
         Throwing.Call.validateOrigin, Throwing.Call.getClientIP,
         Throwing.Call.checkRateLimit, Throwing.Call.Date_now,
         Throwing.Call.request_json, Throwing.Call.validateContactForm,
         Throwing.Call.validateNewsletterForm,
         Throwing.Call.sendContactEmail, Throwing.Call.sendNewsletterWelcome,
         Throwing.Call.logError, Throwing.Call.applySecurityHeaders,
         Throwing.applySecurityHeaders,
         try_catch, bind, addCalls, record, ret, throw, stateful, fallible.

(** On helpers that return normally wherever [Collaborators] says so, the
    routes of this part are the routes of the first part. *)
Lemma POST_ofCollaborators
    {Env} (C : Collaborators Env) (request : Request) (env : Env) :
  Throwing.contactPOST (ofCollaborators C) request env
  = Contact.POST C request env
  /\ Throwing.newsletterPOST (ofCollaborators C) request env
     = Newsletter.POST C request env.
Proof.
  split; unfold_throwing; unfold_route; unfold applySecurityHeaders;
    split_paths; reflexivity.
Qed.

(** ** The order of the calls *)

(** X3. Whatever the helpers do, return or throw: the calls of the [try]
    block are a run of the pipeline [validateOrigin], [getClientIP],
    [checkRateLimit], [request.json()], validator, email sender, cut short
    at the first helper that throws or rejects the request, with the two
    clock readings after a rejecting limiter and [applySecurityHeaders]
    where the route passes its response through it; the [catch] block adds
    its calls, [logError] and then (contact route) [applySecurityHeaders],
    exactly when the [try] block threw.  So helpers are called in pipeline
    order and never twice inside [try]. *)
Theorem calls_follow_the_pipeline
    {Env} (H : Throwing.Helpers Env) (request : Request) (env : Env) :
  (In (map callee (calls (Throwing.contactAttempt H request env)))
      [ [CApplySecurityHeaders];
        [CValidateOrigin];
        [CValidateOrigin; CApplySecurityHeaders];
        [CValidateOrigin; CGetClientIP];
        [CValidateOrigin; CGetClientIP; CCheckRateLimit];
        [CValidateOrigin; CGetClientIP; CCheckRateLimit; CDateNow; CDateNow];
        [CValidateOrigin; CGetClientIP; CCheckRateLimit; CRequestJson];
        [CValidateOrigin; CGetClientIP; CCheckRateLimit; CRequestJson;
         CValidateForm];
        [CValidateOrigin; CGetClientIP; CCheckRateLimit; CRequestJson;
         CValidateForm; CSendEmail];
        [CValidateOrigin; CGetClientIP; CCheckRateLimit; CRequestJson;
         CValidateForm; CSendEmail; CApplySecurityHeaders] ]
   /\ exists recovery,
        calls (Throwing.contactPOST H request env)
        = (calls (Throwing.contactAttempt H request env) ++ recovery)%list
        /\ In (map callee recovery)
              [ []; [CLogError]; [CLogError; CApplySecurityHeaders] ]
        /\ (recovery = [] <->
            exists response,
              outcome (Throwing.contactAttempt H request env)
              = Returned response))
  /\ (In (map callee (calls (Throwing.newsletterAttempt H request env)))
        [ [CApplySecurityHeaders];
          [CValidateOrigin];
          [CValidateOrigin; CApplySecurityHeaders];
          [CValidateOrigin; CGetClientIP];
          [CValidateOrigin; CGetClientIP; CCheckRateLimit];
          [CValidateOrigin; CGetClientIP; CCheckRateLimit; CDateNow;
           CDateNow];
          [CValidateOrigin; CGetClientIP; CCheckRateLimit; CRequestJson];
          [CValidateOrigin; CGetClientIP; CCheckRateLimit; CRequestJson;
           CValidateForm];
          [CValidateOrigin; CGetClientIP; CCheckRateLimit; CRequestJson;
           CValidateForm; CSendEmail] ]
      /\ exists recovery,
           calls (Throwing.newsletterPOST H request env)
           = (calls (Throwing.newsletterAttempt H request env)
              ++ recovery)%list
           /\ In (map callee recovery) [ []; [CLogError] ]
           /\ (recovery = [] <->
               exists response,
                 outcome (Throwing.newsletterAttempt H request env)
                 = Returned response)).
Proof.
  split; unfold_throwing; split_paths;
    (split; [cbn; tauto |]);
    eexists; (split; [cbn; reflexivity |]);
    (split; [cbn; tauto |]);
    (split; [intros Hnil; try discriminate Hnil; eexists; reflexivity
            | intros [response Hout]; try discriminate Hout; reflexivity]).
Qed.

(** ** Which status a request gets *)

(** Name the outcome of every helper call of a run, in call order. *)
Ltac name_outcomes :=
  repeat (cbn;
    match goal with
    | |- context [negb (String.eqb ?m "POST")] =>
        destruct (String.eqb_spec m "POST")
    | |- context [match fst ?p with Returned _ => _ | Threw _ => _ end] =>
        let Hx := fresh "Hcall" in destruct (fst p) eqn:Hx
    | |- context [negb ?b] =>
        let Hb := fresh "Hcond" in destruct b eqn:Hb
    end);
  cbn;
  repeat match goal with u : unit |- _ => destruct u end.

(** Take a chain of facts about helper outcomes apart. *)
Ltac open_chain :=
  repeat match goal with
         | H : _ /\ _ |- _ => destruct H
         | H : _ \/ _ |- _ => destruct H
         | H : exists _, _ |- _ => destruct H
         | H : Returned _ = Returned _ |- _ => injection H as H; subst
         | H : Threw _ = Threw _ |- _ => injection H as H; subst
         | H : true = true -> _ |- _ => specialize (H eq_refl)
         end.

(** Build one. *)
Ltac close_chain :=
  first [ eassumption
        | reflexivity
        | congruence
        | discriminate
        | match goal with
          | |- _ /\ _ => split; close_chain
          | |- exists _, _ => eexists; close_chain
          | |- _ \/ _ => first [ solve [left; close_chain]
                               | solve [right; close_chain] ]
          | |- _ -> _ => intros; close_chain
          end ].

Ltac settle_row := open_chain; try discriminate; try congruence; close_chain.

(** X4. Whatever the helpers do: if the handler returns a response, its
    status is decided by the first step that fails.  405 iff the method is
    not POST; 403 iff then [validateOrigin] returns false; 429 iff then the
    client address is found and the limiter rejects; 400 iff then the body
    parses and the validator rejects it; 200 iff the validator accepts and
    the email sender returns; each of these provided every helper called on
    the way returned, [applySecurityHeaders] included where the route calls
    it.  The status is 500 iff the [try] block threw, whichever helper it
    was. *)
Theorem status_is_decided_by_the_first_failing_step
    {Env} (H : Throwing.Helpers Env) (request : Request) (env : Env) :
  forall attempt r validate send (viaHeaders : bool),
    (attempt = Throwing.contactAttempt H request env
     /\ r = Throwing.contactPOST H request env
     /\ validate = Throwing.validateContactForm H
     /\ send = Throwing.sendContactEmail H
     /\ viaHeaders = true)
    \/ (attempt = Throwing.newsletterAttempt H request env
        /\ r = Throwing.newsletterPOST H request env
        /\ validate = Throwing.validateNewsletterForm H
        /\ send = Throwing.sendNewsletterWelcome H
        /\ viaHeaders = false) ->
    let injected :=
      fun env' => fst (Throwing.securityHeaders H "api" jsonHeaders env') in
    let origin := Throwing.validateOrigin H request env in
    let address := Throwing.getClientIP H request (snd origin) in
    let limit := fun ip => Throwing.checkRateLimit H ip (snd address) in
    let parsed := fun ip => Throwing.requestJson H request (snd (limit ip)) in
    let checked := fun ip data => validate data (snd (parsed ip)) in
    let sent :=
      fun ip data v => send (sanitized v) (snd (checked ip data)) in
    let admitted :=
      fun ip rateLimit =>
        method request = "POST"
        /\ fst origin = Returned true
        /\ fst address = Returned ip
        /\ fst (limit ip) = Returned rateLimit in
    forall response,
      outcome r = Returned response ->
      (status response = 405 <->
       method request <> "POST" /\ exists hs, injected env = Returned hs)
      /\ (status response = 403 <->
          method request = "POST"
          /\ fst origin = Returned false
          /\ exists hs, injected (snd origin) = Returned hs)
      /\ (status response = 429 <->
          exists ip rateLimit,
            admitted ip rateLimit /\ allowed rateLimit = false)
      /\ (status response = 400 <->
          exists ip rateLimit data v,
            admitted ip rateLimit /\ allowed rateLimit = true
            /\ fst (parsed ip) = Returned data
            /\ fst (checked ip data) = Returned v
            /\ valid v = false)
      /\ (status response = 200 <->
          exists ip rateLimit data v,
            admitted ip rateLimit /\ allowed rateLimit = true
            /\ fst (parsed ip) = Returned data
            /\ fst (checked ip data) = Returned v
            /\ valid v = true
            /\ fst (sent ip data v) = Returned tt
            /\ (viaHeaders = true ->
                exists hs, injected (snd (sent ip data v)) = Returned hs))
      /\ (status response = 500 <-> exists e, outcome attempt = Threw e).
Proof.
  intros attempt r validate send viaHeaders Hr
         injected origin address limit parsed checked sent admitted
         response.
  subst injected origin address limit parsed checked sent admitted.
  destruct Hr as [(-> & -> & -> & -> & ->) | (-> & -> & -> & -> & ->)];
    unfold_throwing; name_outcomes;
    intros Hout; try discriminate Hout; injection Hout as <-;
    cbn; repeat split; intros; settle_row.
Qed.

(** ** What the catch block does *)

(** X13. Whatever helper throws inside the [try] block, and whatever it
    throws: the handler next calls [logError] with what was thrown (an
    [Error] as it is, any other value as a new [Error] whose message is the
    value's string rendering), the route's context and severity [high].  If
    [logError] returns, the newsletter route answers the fixed 500 response
    and the contact route passes the fixed 500 response through
    [applySecurityHeaders]; the handler itself throws only when [logError]
    or that last [applySecurityHeaders] throws. *)
Theorem whatever_is_thrown_is_logged_and_answered_500
    {Env} (H : Throwing.Helpers Env) (request : Request) (env : Env)
    (e : Thrown) :
  let logged :=
    match e with
    | ThrownError err => err
    | ThrownOther rendering => {| message := rendering |}
    end in
  (outcome (Throwing.contactAttempt H request env) = Threw e ->
   let attempt := Throwing.contactAttempt H request env in
   let r := Throwing.contactPOST H request env in
   let context :=
     {| component := "contact-api";
        action := "form-submission";
        metadata := [("endpoint", "/api/contact")] |} in
   let log := Throwing.logError H logged context "high" (envAfter attempt) in
   let inject := Throwing.securityHeaders H "api" jsonHeaders (snd log) in
   match fst log with
   | Threw e' =>
       outcome r = Threw e'
       /\ calls r = (calls attempt ++ [EvLogError logged context "high"])%list
       /\ envAfter r = snd log
   | Returned _ =>
       calls r
       = (calls attempt
          ++ [EvLogError logged context "high";
              EvApplySecurityHeaders Contact.internalError "api"])%list
       /\ envAfter r = snd inject
       /\ outcome r
          = match fst inject with
            | Threw e' => Threw e'
            | Returned hs =>
                Returned
                  {| body :=
                       Some (JObj [("success", JBool false);
                                   ("error",
                                    JStr "Internal server error. Please try again later.")]);
                     status := 500;
                     headers := hs |}
            end
   end)
  /\ (outcome (Throwing.newsletterAttempt H request env) = Threw e ->
      let attempt := Throwing.newsletterAttempt H request env in
      let r := Throwing.newsletterPOST H request env in
      let context :=
        {| component := "newsletter-api";
           action := "subscription";
           metadata := [("endpoint", "/api/newsletter")] |} in
      let log :=
        Throwing.logError H logged context "high" (envAfter attempt) in
      calls r = (calls attempt ++ [EvLogError logged context "high"])%list
      /\ envAfter r = snd log
      /\ outcome r
         = match fst log with
           | Threw e' => Threw e'
           | Returned _ =>
               Returned
                 {| body :=
                      Some (JObj [("success", JBool false);
                                  ("error",
                                   JStr "Internal server error. Please try again later.")]);
                    status := 500;
                    headers := [("Content-Type", "application/json")] |}
           end).
Proof.
  intros logged. subst logged. split.
  - intros Hthrew attempt r context log inject.
    subst attempt r context log inject.
    unfold Throwing.contactPOST, try_catch.
    destruct (Throwing.contactAttempt H request env) as [o env' evs].
    cbn in Hthrew. subst o.
    unfold Throwing.contactRecover, Throwing.Call.logError,
           Throwing.Call.applySecurityHeaders,
           Throwing.applySecurityHeaders,
           bind, addCalls, record, ret, fallible.
    cbn. destruct (fst (Throwing.logError H _ _ _ env')); cbn.
    + destruct (fst (Throwing.securityHeaders H _ _ _)); repeat split.
    + repeat split.
  - intros Hthrew attempt r context log. subst attempt r context log.
    unfold Throwing.newsletterPOST, try_catch.
    destruct (Throwing.newsletterAttempt H request env) as [o env' evs].
    cbn in Hthrew. subst o.
    unfold Throwing.newsletterRecover, Throwing.Call.logError,
           bind, addCalls, record, ret, fallible.
    cbn. destruct (fst (Throwing.logError H _ _ _ env')); repeat split.
Qed.

(** A client address that cannot be determined: [getClientIP] throws a
    string. *)
Lemma whatever_is_thrown_is_logged_and_answered_500_witness :
  let fails c :=
    if Callee_eqb c CGetClientIP then Some (ThrownOther "no socket")
    else None in
  let H := withFaults fails (ofCollaborators (InMemory.collaborators 60000 5)) in
  let request := InMemory.post InMemory.siteOrigin "203.0.113.7" "good" in
  let env := InMemory.start 1000 0 false in
  outcome (Throwing.contactAttempt H request env)
  = Threw (ThrownOther "no socket")
  /\ calls (Throwing.contactPOST H request env)
     = [EvValidateOrigin request; EvGetClientIP request;
        EvLogError {| message := "no socket" |}
          {| component := "contact-api";
             action := "form-submission";
             metadata := [("endpoint", "/api/contact")] |}
          "high";
        EvApplySecurityHeaders Contact.internalError "api"]
  /\ exists response,
       outcome (Throwing.contactPOST H request env) = Returned response
       /\ status response = 500.
Proof.
  intros fails H request env.
  assert (Hthrew : outcome (Throwing.contactAttempt H request env)
                   = Threw (ThrownOther "no socket"))
    by (vm_compute; reflexivity).
  split; [exact Hthrew |].
  destruct (whatever_is_thrown_is_logged_and_answered_500
              H request env (ThrownOther "no socket")) as [Hcontact _].
  specialize (Hcontact Hthrew). cbv zeta in Hcontact.
  destruct (fst (Throwing.logError H _ _ _ _)) eqn:Hlog in Hcontact;
    [| vm_compute in Hlog; discriminate Hlog].
  destruct Hcontact as (Hcalls & _ & Hout).
  split; [rewrite Hcalls; vm_compute; reflexivity |].
  rewrite Hout.
  destruct (fst (Throwing.securityHeaders H _ _ _)) eqn:Hinj;
    [| vm_compute in Hinj; discriminate Hinj].
  eexists. split; reflexivity.
Defined.

Lemma status_is_decided_by_the_first_failing_step_witness :
  let fails c :=
    if Callee_eqb c CGetClientIP then Some (ThrownOther "no socket")
    else None in
  let H := withFaults fails (ofCollaborators (InMemory.collaborators 60000 5)) in
  let request := InMemory.post InMemory.siteOrigin "203.0.113.7" "good" in
  let env := InMemory.start 1000 0 false in
  exists response,
    outcome (Throwing.contactPOST H request env) = Returned response
    /\ status response = 500
    /\ map callee (calls (Throwing.contactPOST H request env))
       = [CValidateOrigin; CGetClientIP; CLogError; CApplySecurityHeaders].
Proof.
  intros fails H request env.
  eexists. split; [vm_compute; reflexivity |].
  split; [| vm_compute; reflexivity].
  eapply (status_is_decided_by_the_first_failing_step
            H request env _ _ _ _ true
            (or_introl (conj eq_refl (conj eq_refl
                          (conj eq_refl (conj eq_refl eq_refl)))))).
  - vm_compute. reflexivity.
  - exists (ThrownOther "no socket"). vm_compute. reflexivity.
Defined.

(** ** What makes the try block throw *)

(** X14. The [try] block throws exactly what the first failing helper
    throws: [applySecurityHeaders] on the 405 and 403 paths,
    [validateOrigin], [getClientIP], [checkRateLimit], [request.json()] for
    an admitted request, the validator, the email sender for a valid
    submission and, on the contact route, [applySecurityHeaders] after the
    send.  A request that is merely turned down (405, 403, 429, 400) throws
    nothing. *)
Theorem try_block_throws_what_the_first_failing_helper_throws
    {Env} (H : Throwing.Helpers Env) (request : Request) (env : Env) :
  forall attempt validate send (viaHeaders : bool),
    (attempt = Throwing.contactAttempt H request env
     /\ validate = Throwing.validateContactForm H
     /\ send = Throwing.sendContactEmail H
     /\ viaHeaders = true)
    \/ (attempt = Throwing.newsletterAttempt H request env
        /\ validate = Throwing.validateNewsletterForm H
        /\ send = Throwing.sendNewsletterWelcome H
        /\ viaHeaders = false) ->
    let injected :=
      fun env' => fst (Throwing.securityHeaders H "api" jsonHeaders env') in
    let origin := Throwing.validateOrigin H request env in
    let address := Throwing.getClientIP H request (snd origin) in
    let limit := fun ip => Throwing.checkRateLimit H ip (snd address) in
    let parsed := fun ip => Throwing.requestJson H request (snd (limit ip)) in
    let checked := fun ip data => validate data (snd (parsed ip)) in
    let sent :=
      fun ip data v => send (sanitized v) (snd (checked ip data)) in
    forall e,
      let sendFails :=
        fun ip data v =>
          fst (sent ip data v) = Threw e
          \/ (fst (sent ip data v) = Returned tt
              /\ viaHeaders = true
              /\ injected (snd (sent ip data v)) = Threw e) in
      let validationFails :=
        fun ip data =>
          fst (checked ip data) = Threw e
          \/ exists v,
               fst (checked ip data) = Returned v /\ valid v = true
               /\ sendFails ip data v in
      let parseFails :=
        fun ip =>
          fst (parsed ip) = Threw e
          \/ exists data,
               fst (parsed ip) = Returned data /\ validationFails ip data in
      let limitFails :=
        fun ip =>
          fst (limit ip) = Threw e
          \/ exists rateLimit,
               fst (limit ip) = Returned rateLimit
               /\ allowed rateLimit = true
               /\ parseFails ip in
      let addressFails :=
        fst address = Threw e
        \/ exists ip, fst address = Returned ip /\ limitFails ip in
      let originFails :=
        fst origin = Threw e
        \/ (fst origin = Returned false /\ injected (snd origin) = Threw e)
        \/ (fst origin = Returned true /\ addressFails) in
      outcome attempt = Threw e <->
      (method request <> "POST" /\ injected env = Threw e)
      \/ (method request = "POST" /\ originFails).
Proof.
  intros attempt validate send viaHeaders Hr
         injected origin address limit parsed checked sent e
         sendFails validationFails parseFails limitFails addressFails
         originFails.
  subst originFails addressFails limitFails parseFails validationFails
        sendFails.
  subst injected origin address limit parsed checked sent.
  destruct Hr as [(-> & -> & -> & ->) | (-> & -> & -> & ->)];
    unfold_throwing; name_outcomes;
    split; intros; settle_row.
Qed.

Lemma try_block_throws_what_the_first_failing_helper_throws_witness :
  let fails c :=
    if Callee_eqb c CGetClientIP then Some (ThrownOther "no socket")
    else None in
  let H := withFaults fails (ofCollaborators (InMemory.collaborators 60000 5)) in
  let request := InMemory.post InMemory.siteOrigin "203.0.113.7" "good" in
  let env := InMemory.start 1000 0 false in
  outcome (Throwing.newsletterAttempt H request env)
  = Threw (ThrownOther "no socket").
Proof.
  intros fails H request env.
  apply (try_block_throws_what_the_first_failing_helper_throws
           H request env _ _ _ false
           (or_intror (conj eq_refl (conj eq_refl (conj eq_refl eq_refl))))).
  right. split; [reflexivity |].
  right. right. split; [vm_compute; reflexivity |].
  left. vm_compute. reflexivity.
Defined.
